(** * gantt.py: work packages, chart data and rendering calls

    A shallow embedding of [src/gantt.py] (classes [Package] and [Gantt])
    and of the few library functions it leans on ([datetime.strptime] with
    the format ["%m-%Y"], [datetime.toordinal], [list.index], [np.arange],
    [min]/[max]), followed by the properties of the chart data.

    Scope of the embedding.
    - A loaded JSON document is a value of [json]: [None], [bool], [int],
      [str], [list], [dict].  Numbers with a fraction or an exponent are
      not represented.
    - A [str] is a Rocq [string]: a sequence of code points below 256.
    - A [datetime] produced by ["%m-%Y"] always has a zero time of day and
      no time zone, so only year, month and day are kept.
    - Calls into matplotlib are recorded, in order, as a list of
      [plot_call]s.  The plotting library itself is not modelled: its
      calls are taken to succeed on what this program passes, except
      [barh], which refuses some colour lists (see [pyplot]).
    - Of the outcomes of reading the data file, running out of memory or
      of recursion depth is left out. *)

From Stdlib Require Import ZArith Lia Bool Ascii String List.
From stdpp Require Import base list strings.

Local Open Scope Z_scope.
Local Set Warnings "-register-all".

(** ** Python values and exceptions *)

(** What [json.load] returns.  A [dict] keeps its insertion order; a key
    is looked up by its first binding. *)
Inductive json : Type :=
  | JNull
  | JBool (b : bool)
  | JInt (n : Z)
  | JStr (s : string)
  | JArr (items : list json)
  | JObj (fields : list (string * json)).

(** The ways a [ValueError] reaches this program: raised by the source
    with a message of its own, or raised inside a library call (whose
    message text is the library's and is not modelled). *)
Inductive value_error : Type :=
  | Message (msg : string)     (* raise ValueError(msg) in gantt.py *)
  | Strptime (data : string)   (* datetime.strptime(data, "%m-%Y") *)
  | EmptySequence              (* min() or max() of an empty sequence *)
  | NotInList                  (* list.index(x), x not in the list *)
  | InvalidColor.              (* plt.barh(..., color=...) *)

Inductive exn : Type :=
  | OSError                    (* open(): missing or unreadable file *)
  | UnicodeDecodeError         (* reading the file: not text in its encoding *)
  | JSONDecodeError            (* json.load(): not a JSON text *)
  | KeyError (key : string)
  | TypeError
  | AttributeError
  | IndexError
  | ValueError (why : value_error).

Inductive result (A : Type) : Type :=
  | Ok (a : A)
  | Raise (e : exn).
Arguments Ok {A} a.
Arguments Raise {A} e.

#[export] Instance result_ret : MRet result := fun _ a => Ok a.
#[export] Instance result_bind : MBind result := fun _ _ f m =>
  match m with
  | Ok a => f a
  | Raise e => Raise e
  end.

(** [[f(x) for x in xs]] and [for x in xs: ...] with a fallible body: the
    first exception ends the loop. *)
Fixpoint for_each {A B} (f : A -> result B) (xs : list A) : result (list B) :=
  match xs with
  | [] => Ok []
  | x :: xs' => y ← f x; ys ← for_each f xs'; Ok (y :: ys)
  end.

(** [d[k]] in a dict built by [json.load]. *)
Fixpoint assoc (k : string) (kvs : list (string * json)) : option json :=
  match kvs with
  | [] => None
  | (k', v) :: kvs' => if String.eqb k' k then Some v else assoc k kvs'
  end.

(** [v[k]] for a string key [k]: only a dict can be subscripted by one. *)
Definition getitem (v : json) (k : string) : result json :=
  match v with
  | JObj kvs =>
      match assoc k kvs with
      | Some x => Ok x
      | None => Raise (KeyError k)
      end
  | _ => Raise TypeError
  end.

Fixpoint chars (s : string) : list json :=
  match s with
  | EmptyString => []
  | String c s' => JStr (String c EmptyString) :: chars s'
  end.

(** [iter(v)]: a list gives its items, a string its characters, a dict
    its keys; the other values are not iterable. *)
Definition iter (v : json) : result (list json) :=
  match v with
  | JArr items => Ok items
  | JStr s => Ok (chars s)
  | JObj kvs => Ok (map (fun kv => JStr (fst kv)) kvs)
  | _ => Raise TypeError
  end.

(** [bool(v)], as in [if v:]. *)
Definition truthy (v : json) : bool :=
  match v with
  | JNull => false
  | JBool b => b
  | JInt n => negb (n =? 0)
  | JStr s => negb (String.eqb s "")
  | JArr items => match items with [] => false | _ => true end
  | JObj kvs => match kvs with [] => false | _ => true end
  end.

(** [hash(v)] succeeds: lists and dicts cannot be dict keys. *)
Definition hashable (v : json) : bool :=
  match v with
  | JArr _ | JObj _ => false
  | _ => true
  end.

Definition bool_int (b : bool) : Z := if b then 1 else 0.

(** [a == b].  [True == 1] and [False == 0]; lists compare item by item,
    dicts by size and by the bindings of the left one. *)
Fixpoint py_eq (a b : json) {struct a} : bool :=
  match a, b with
  | JNull, JNull => true
  | JBool x, JBool y => Bool.eqb x y
  | JBool x, JInt n => bool_int x =? n
  | JInt n, JBool y => n =? bool_int y
  | JInt m, JInt n => m =? n
  | JStr s, JStr t => String.eqb s t
  | JArr xs, JArr ys =>
      (fix items xs ys {struct xs} :=
         match xs, ys with
         | [], [] => true
         | x :: xs', y :: ys' => py_eq x y && items xs' ys'
         | _, _ => false
         end) xs ys
  | JObj kvs, JObj kws =>
      (length kvs =? length kws)%nat &&
      (fix fields kvs {struct kvs} :=
         match kvs with
         | [] => true
         | (k, v) :: kvs' =>
             match assoc k kws with
             | Some w => py_eq v w
             | None => false
             end && fields kvs'
         end) kvs
  | _, _ => false
  end.

(** ** Dates: the part of [datetime] the program uses *)

Record datetime : Type := mkdate { year : Z; month : Z; day : Z }.

(** Comparison of two datetimes (time of day zero on both sides). *)
Definition dt_compare (a b : datetime) : comparison :=
  match year a ?= year b with
  | Eq => match month a ?= month b with
          | Eq => day a ?= day b
          | c => c
          end
  | c => c
  end.

Definition dt_gt (a b : datetime) : bool :=
  match dt_compare a b with Gt => true | _ => false end.

Definition dt_le (a b : datetime) : Prop := dt_compare a b <> Gt.

(** CPython's proleptic Gregorian ordinal, January 1 of year 1 is day 1. *)
Definition _is_leap (y : Z) : bool :=
  (y mod 4 =? 0) && (negb (y mod 100 =? 0) || (y mod 400 =? 0)).

Definition _days_before_year (y : Z) : Z :=
  let y' := y - 1 in y' * 365 + y' / 4 - y' / 100 + y' / 400.

Definition _DAYS_IN_MONTH : list Z :=
  [-1; 31; 28; 31; 30; 31; 30; 31; 31; 30; 31; 30; 31].

Definition _DAYS_BEFORE_MONTH : list Z :=
  [-1; 0; 31; 59; 90; 120; 151; 181; 212; 243; 273; 304; 334].

Definition _days_in_month (y m : Z) : Z :=
  if (m =? 2) && _is_leap y then 29
  else nth (Z.to_nat m) _DAYS_IN_MONTH 0.

Definition _days_before_month (y m : Z) : Z :=
  nth (Z.to_nat m) _DAYS_BEFORE_MONTH 0
  + (if (2 <? m) && _is_leap y then 1 else 0).

Definition _ymd2ord (y m d : Z) : Z :=
  _days_before_year y + _days_before_month y m + d.

Definition toordinal (d : datetime) : Z := _ymd2ord (year d) (month d) (day d).

(** [(e - s).days] for two datetimes with a zero time of day. *)
Definition days_between (e s : datetime) : Z := toordinal e - toordinal s.

(** *** [datetime.strptime(s, "%m-%Y")]

    CPython turns the format into the regular expression
    [(?P<m>1[0-2]|0[1-9]|[1-9])-(?P<Y>\d\d\d\d)], matches it at the start
    of the string, and refuses what is left over. *)

Definition ord (c : ascii) : Z := Z.of_nat (nat_of_ascii c).

Definition between (lo hi c : ascii) : bool :=
  (ord lo <=? ord c) && (ord c <=? ord hi).

Definition is_digit (c : ascii) : bool := between "0" "9" c.

Definition digit (c : ascii) : Z := ord c - ord "0".

(** The group [(?P<m>1[0-2]|0[1-9]|[1-9])]: every way it matches a prefix,
    in the order the alternatives are tried, with the rest of the input. *)
Definition re_m (s : string) : list (Z * string) :=
  match s with
  | EmptyString => []
  | String c1 s1 =>
      match s1 with
      | EmptyString => []
      | String c2 s2 =>
          (if Ascii.eqb c1 "1" && between "0" "2" c2
           then [(10 + digit c2, s2)] else [])
          ++ (if Ascii.eqb c1 "0" && between "1" "9" c2
              then [(digit c2, s2)] else [])
      end
      ++ (if between "1" "9" c1 then [(digit c1, s1)] else [])
  end.

(** The literal [-] and then the group [(?P<Y>\d\d\d\d)]. *)
Definition re_dash_Y (s : string) : option (Z * string) :=
  match s with
  | String dash (String a (String b (String c (String d s')))) =>
      if Ascii.eqb dash "-"
         && is_digit a && is_digit b && is_digit c && is_digit d
      then Some (1000 * digit a + 100 * digit b + 10 * digit c + digit d, s')
      else None
  | _ => None
  end.

(** Backtracking over the alternatives of the month group: the first one
    after which the rest of the pattern matches. *)
Fixpoint re_rest (alts : list (Z * string)) : option (Z * Z * string) :=
  match alts with
  | [] => None
  | (m, s) :: alts' =>
      match re_dash_Y s with
      | Some (y, s') => Some (m, y, s')
      | None => re_rest alts'
      end
  end.

Definition re_match (s : string) : option (Z * Z * string) :=
  re_rest (re_m s).

Definition MINYEAR : Z := 1.

(** [None] stands for the [ValueError] of [strptime]: no match,
    unconverted data left, or a year below [MINYEAR].  The day defaults
    to 1. *)
Definition strptime_mY (s : string) : option datetime :=
  match re_match s with
  | Some (m, y, EmptyString) =>
      if y <? MINYEAR then None else Some (mkdate y m 1)
  | _ => None
  end.

Definition strptime (v : json) : result datetime :=
  match v with
  | JStr s =>
      match strptime_mY s with
      | Some d => Ok d
      | None => Raise (ValueError (Strptime s))
      end
  | _ => Raise TypeError
  end.

(** ** Control flow and containers of the source *)

(** [try: body / except E: handler] for the exception class picked out by
    [catches]. *)
Definition try_except {A} (catches : exn -> bool)
    (body handler : result A) : result A :=
  match body with
  | Ok a => Ok a
  | Raise e => if catches e then handler else Raise e
  end.

Definition is_KeyError (e : exn) : bool :=
  match e with KeyError _ => true | _ => false end.

Definition is_AttributeError (e : exn) : bool :=
  match e with AttributeError => true | _ => false end.

(** A [for] loop that updates a state. *)
Fixpoint for_fold {A S} (body : S -> A -> result S) (xs : list A) (s : S)
    : result S :=
  match xs with
  | [] => Ok s
  | x :: xs' => s' ← body s x; for_fold body xs' s'
  end.

(** [l.index(x)]: the position of the first item equal to [x]. *)
Fixpoint index (l : list json) (x : json) : option nat :=
  match l with
  | [] => None
  | y :: l' => if py_eq y x then Some 0%nat else S <$> index l' x
  end.

Definition list_index (l : list json) (x : json) : result nat :=
  match index l x with
  | Some i => Ok i
  | None => Raise (ValueError NotInList)
  end.

(** [l[i] = x] and [l[i]] for [0 <= i]. *)
Definition list_setitem {A} (l : list A) (i : nat) (x : A) : result (list A) :=
  if (i <? length l)%nat then Ok (<[i := x]> l) else Raise IndexError.

Definition list_getitem {A} (l : list A) (i : nat) : result A :=
  match l !! i with
  | Some x => Ok x
  | None => Raise IndexError
  end.

(** A dict keyed by JSON values, in insertion order; assigning to a key
    that is already there (up to [==]) keeps the key and its place. *)
Fixpoint dict_set {V} (d : list (json * V)) (k : json) (v : V)
    : list (json * V) :=
  match d with
  | [] => [(k, v)]
  | (k', v') :: d' =>
      if py_eq k' k then (k', v) :: d' else (k', v') :: dict_set d' k v
  end.

Fixpoint dict_get {V} (d : list (json * V)) (k : json) : option V :=
  match d with
  | [] => None
  | (k', v') :: d' => if py_eq k' k then Some v' else dict_get d' k
  end.

(** [d[k] = v]. *)
Definition dict_setitem {V} (d : list (json * V)) (k : json) (v : V)
    : result (list (json * V)) :=
  if hashable k then Ok (dict_set d k v) else Raise TypeError.

(** [np.arange(start, stop, step)] on integers, [step] not zero. *)
Definition arange (start stop step : Z) : list Z :=
  map (fun i => start + Z.of_nat i * step)
      (seq 0 (Z.to_nat (- ((start - stop) / step)))).

(** [min(l)] and [max(l)]. *)
Definition py_min (l : list Z) : result Z :=
  match l with
  | [] => Raise (ValueError EmptySequence)
  | x :: l' => Ok (fold_left Z.min l' x)
  end.

Definition py_max (l : list Z) : result Z :=
  match l with
  | [] => Raise (ValueError EmptySequence)
  | x :: l' => Ok (fold_left Z.max l' x)
  end.

(** ** class Package *)

Module Package.

Record t : Type := mk {
  label : json;
  start : datetime;
  end_ : datetime;
  milestones : list datetime;
  color : json;
  legend : json
}.

Definition DEFCOLOR : string := "#32AEE0".

Definition date_message (date_str : string) : string :=
  "Date format for " +:+ date_str +:+ " should be MM-YYYY".

(** Only the [ValueError] of [strptime] is caught and replaced; its
    [TypeError] for an argument that is not a string passes through. *)
Definition _parse_date (date_str : json) : result datetime :=
  match date_str with
  | JStr s =>
      match strptime_mY s with
      | Some d => Ok d
      | None => Raise (ValueError (Message (date_message s)))
      end
  | _ => Raise TypeError
  end.

Definition __init__ (pkg : json) : result t :=
  label ← getitem pkg "label";
  start ← (s ← getitem pkg "start"; _parse_date s);
  end_ ← (s ← getitem pkg "end"; _parse_date s);
  if dt_gt start end_
  then Raise (ValueError (Message "Cannot end before started"))
  else
    milestones ← try_except is_KeyError
      (ms ← getitem pkg "milestones"; items ← iter ms;
       for_each _parse_date items)
      (Ok []);
    color ← try_except is_KeyError (getitem pkg "color")
              (Ok (JStr DEFCOLOR));
    legend ← try_except is_KeyError (getitem pkg "legend") (Ok JNull);
    Ok (mk label start end_ milestones color legend).

End Package.

(** ** class Gantt *)

(** What [open] and [json.load] make of the data file. *)
Inductive file : Type :=
  | Unreadable               (* open() raises OSError *)
  | Undecodable              (* reading it raises UnicodeDecodeError *)
  | Malformed                (* json.load() raises JSONDecodeError *)
  | Document (data : json).

Definition json_load (f : file) : result json :=
  match f with
  | Unreadable => Raise OSError
  | Undecodable => Raise UnicodeDecodeError
  | Malformed => Raise JSONDecodeError
  | Document data => Ok data
  end.

(** The calls made on the plotting library. *)
Inductive plot_call : Type :=
  | subplots
  | yaxis_grid (on : bool)
  | xaxis_grid (on : bool)
  | barh (y width left : list Z) (colors : list json)
  | tick_params
  | xlim (lo hi : Z)
  | ylim (n : nat)                     (* plt.ylim(0.5, n + 0.5) *)
  | yticks (pos : list Z) (labels : list json)
  | set_title (s : json)
  | set_xlabel (s : json)
  | set_xticks (pos : list Z) (labels : json)
  | scatter (x y : list Z)
  | set_label (idx : nat) (text : json)  (* self.barlist[idx].set_label *)
  | ax_legend.

(** What the program depends on from matplotlib.  [barh] turns its
    [color] argument into RGBA values and raises [ValueError] for a list
    it cannot read as colours; which lists it reads is the library's
    business and is left open.  A list of no colours is read. *)
Record pyplot : Type := mkplt {
  reads_colors : list json -> bool;
  reads_no_colors : reads_colors [] = true
}.

Module Gantt.

(** The attributes set by [_loadData]. *)
Record data : Type := mkdata {
  title : json;
  packages : list Package.t;
  labels : list json;
  milestones : list (json * list datetime);
  xlabel : json;
  xticks : json
}.

(** The object once [_procData] has run. *)
Record t : Type := mk {
  loaded : data;
  nPackages : nat;
  start : list Z;
  end_ : list Z;
  durations : list Z;
  yPos : list Z
}.

Definition _loadData (dataFile : file) : result data :=
  d ← json_load dataFile;
  title ← getitem d "title";
  packages ← (ps ← getitem d "packages"; items ← iter ps;
              for_each Package.__init__ items);
  labels ← (ps ← getitem d "packages"; items ← iter ps;
            for_each (fun pkg => getitem pkg "label") items);
  milestones ← for_fold
    (fun ms pkg =>
       try_except is_AttributeError
         (dict_setitem ms (Package.label pkg) (Package.milestones pkg))
         (Ok ms))
    packages [];
  xlabel ← try_except is_KeyError (getitem d "xlabel") (Ok (JStr ""));
  xticks ← try_except is_KeyError (getitem d "xticks") (Ok (JArr []));
  Ok (mkdata title packages labels milestones xlabel xticks).

(** The loop that files each package's dates under the index of its
    label. *)
Definition place (labels : list json)
    (slots : list (option datetime) * list (option datetime))
    (pkg : Package.t)
    : result (list (option datetime) * list (option datetime)) :=
  idx ← list_index labels (Package.label pkg);
  start ← list_setitem (fst slots) idx (Some (Package.start pkg));
  end_ ← list_setitem (snd slots) idx (Some (Package.end_ pkg));
  Ok (start, end_).

(** [(e - s).days]; a slot still [None] has no [-]. *)
Definition sub_days (se : option datetime * option datetime) : result Z :=
  match se with
  | (Some s, Some e) => Ok (days_between e s)
  | _ => Raise TypeError
  end.

(** [s.toordinal()]; [None] has no such attribute. *)
Definition ordinal_of (s : option datetime) : result Z :=
  match s with
  | Some d => Ok (toordinal d)
  | None => Raise AttributeError
  end.

Definition _procData (g : data) : result t :=
  let nPackages := length (labels g) in
  slots ← for_fold (place (labels g)) (packages g)
            (replicate nPackages None, replicate nPackages None);
  durations ← for_each sub_days (zip (fst slots) (snd slots));
  start ← for_each ordinal_of (fst slots);
  end_ ← for_each ordinal_of (snd slots);
  Ok (mk g nPackages start end_ durations
         (arange (Z.of_nat nPackages) 0 (-1))).

Definition __init__ (dataFile : file) : result t :=
  g ← _loadData dataFile;
  _procData g.

(** *** Rendering: each step takes the calls made so far and adds its
    own. *)

Definition format (g : t) (calls : list plot_call)
    : result (list plot_call) :=
  let calls := calls ++ [tick_params] in
  lo ← py_min (start g);
  hi ← py_max (end_ g);
  let calls := calls ++ [xlim lo hi; ylim (nPackages g);
                         yticks (yPos g) (labels (loaded g));
                         set_title (title (loaded g))] in
  let calls := if truthy (xlabel (loaded g))
               then calls ++ [set_xlabel (xlabel (loaded g))] else calls in
  if truthy (xticks (loaded g))
  then
    ticks ← iter (xticks (loaded g));
    pos ← for_each (fun tick => d ← strptime tick; Ok (toordinal d)) ticks;
    Ok (calls ++ [set_xticks pos (xticks (loaded g))])
  else Ok calls.

Definition add_milestones (g : t) (calls : list plot_call)
    : result (list plot_call) :=
  match milestones (loaded g) with
  | [] => Ok calls
  | ms =>
      xy ← for_fold
        (fun xy kv =>
           for_fold
             (fun xy value =>
                idx ← list_index (labels (loaded g)) (fst kv);
                y ← list_getitem (yPos g) idx;
                Ok (fst xy ++ [toordinal value], snd xy ++ [y]))
             (snd kv) xy)
        ms ([], []);
      Ok (calls ++ [scatter (fst xy) (snd xy)])
  end.

(** One turn of the loop of [add_legend]: the counter and the calls. *)
Definition legend_step (g : t) (st : nat * list plot_call)
    (pkg : Package.t) : result (nat * list plot_call) :=
  if truthy (Package.legend pkg)
  then
    idx ← list_index (labels (loaded g)) (Package.label pkg);
    if (idx <? length (yPos g))%nat
    then Ok (S (fst st), snd st ++ [set_label idx (Package.legend pkg)])
    else Raise IndexError
  else Ok st.

Definition add_legend (g : t) (calls : list plot_call)
    : result (list plot_call) :=
  st ← for_fold (legend_step g) (packages (loaded g)) (0%nat, calls);
  if (0 <? fst st)%nat then Ok (snd st ++ [ax_legend]) else Ok (snd st).

Definition render (plt : pyplot) (g : t) : result (list plot_call) :=
  let calls := [subplots; yaxis_grid false; xaxis_grid true] in
  let colors := map Package.color (packages (loaded g)) in
  if reads_colors plt colors
  then
    let calls := calls ++ [barh (yPos g) (durations g) (start g) colors] in
    calls ← format g calls;
    calls ← add_milestones g calls;
    add_legend g calls
  else Raise (ValueError InvalidColor).

End Gantt.

(** ** The vocabulary of the specification *)

(** *** Date strings *)

(** [int(s)] for a string of decimal digits. *)
Definition decimal (s : string) : Z :=
  fold_left (fun n c => 10 * n + digit c) (list_ascii_of_string s) 0.

Definition all_digits (s : string) : bool :=
  forallb is_digit (list_ascii_of_string s).

(** The pattern "MM-YYYY": a two-digit month, a hyphen, a four-digit
    year. *)
Definition matches_MM_YYYY (s : string) : bool :=
  (String.length s =? 7)%nat
  && all_digits (substring 0 2 s)
  && String.eqb (substring 2 1 s) "-"
  && all_digits (substring 3 4 s).

(** A valid "MM-YYYY" string: the pattern, with a month from 01 to 12 and
    a year that [datetime] can hold (0001 to 9999). *)
Definition valid_MM_YYYY (s : string) : bool :=
  matches_MM_YYYY s
  && (1 <=? decimal (substring 0 2 s)) && (decimal (substring 0 2 s) <=? 12)
  && (MINYEAR <=? decimal (substring 3 4 s)).

(** The spellings of a month that ["%m"] takes. *)
Definition month_texts : list string :=
  ["1"; "2"; "3"; "4"; "5"; "6"; "7"; "8"; "9";
   "01"; "02"; "03"; "04"; "05"; "06"; "07"; "08"; "09";
   "10"; "11"; "12"]%string.

(** The spellings of a year that ["%Y"] takes and [datetime] can hold. *)
Definition year_text (y : string) : bool :=
  (String.length y =? 4)%nat && all_digits y && (MINYEAR <=? decimal y).

(** What ["%m-%Y"] takes: a month, a hyphen, a year. *)
Definition strptime_form (s : string) : Prop :=
  exists m y, s = m +:+ "-" +:+ y /\ In m month_texts /\ year_text y = true.

Definition digit_char (n : Z) : ascii := ascii_of_nat (Z.to_nat (ord "0" + n)).

(** Modelled from the spec: the source has no function that writes a date
    back; this is the "MM-YYYY" rendering of a date the round-trip
    property speaks of, the month on two digits and the year on four. *)
Definition format_MM_YYYY (d : datetime) : string :=
  String (digit_char (month d / 10)) (String (digit_char (month d mod 10))
  (String "-"
  (String (digit_char (year d / 1000))
  (String (digit_char (year d / 100 mod 10))
  (String (digit_char (year d / 10 mod 10))
  (String (digit_char (year d mod 10)) EmptyString)))))).

(** *** The calendar, month by month *)

(** The Gregorian calendar as a table: the length of month [m] of year
    [y]. *)
Definition month_length (y m : Z) : Z :=
  match m with
  | 2 => if (y mod 400 =? 0) || ((y mod 4 =? 0) && negb (y mod 100 =? 0))
         then 29 else 28
  | 4 | 6 | 9 | 11 => 30
  | _ => 31
  end.

(** Months counted from year 0: [12 * year + (month - 1)]. *)
Definition month_number (d : datetime) : Z := 12 * year d + (month d - 1).

Definition first_of_month (i : Z) : datetime :=
  mkdate (i / 12) (i mod 12 + 1) 1.

(** The days of the [k] months that start at month number [i]. *)
Fixpoint days_of_months (k : nat) (i : Z) : Z :=
  match k with
  | O => 0
  | S k' => month_length (i / 12) (i mod 12 + 1) + days_of_months k' (i + 1)
  end.

(** The calendar days from the first day of [s]'s month to the first day
    of [e]'s month. *)
Definition calendar_days (s e : datetime) : Z :=
  days_of_months (Z.to_nat (month_number e - month_number s)) (month_number s).

(** A date that is the first day of a month. *)
Definition month_start (d : datetime) : Prop :=
  1 <= month d <= 12 /\ day d = 1.

(** *** Error kinds

    The specification names three kinds of failure; this is how the
    exceptions of the program fall under them. *)
Inductive error_kind : Type :=
  | FormatError (offending : string)
  | ValidationError
  | DataError.

Inductive has_kind : exn -> error_kind -> Prop :=
  | format_error s :
      has_kind (ValueError (Message (Package.date_message s))) (FormatError s)
  | validation_error :
      has_kind (ValueError (Message "Cannot end before started"))
               ValidationError
  | data_error_file : has_kind OSError DataError
  | data_error_text : has_kind UnicodeDecodeError DataError
  | data_error_json : has_kind JSONDecodeError DataError
  | data_error_title : has_kind (KeyError "title") DataError
  | data_error_packages : has_kind (KeyError "packages") DataError.

(** *** Labels *)

(** Two positions of the label list hold equal labels. *)
Definition duplicate_at (labels : list json) (i j : nat) : Prop :=
  (i < j)%nat /\
  exists a b, labels !! i = Some a /\ labels !! j = Some b /\ py_eq a b = true.

Definition distinct_labels (labels : list json) : Prop :=
  forall i j, ~ duplicate_at labels i j.

(** The dict [d] has an entry under the key [k]. *)
Definition dict_has {V} (d : list (json * V)) (k : json) : Prop :=
  exists v, dict_get d k = Some v.

(** *** Chart data *)

(** The duration of a package's bar: [(end - start).days]. *)
Definition duration (p : Package.t) : Z :=
  days_between (Package.end_ p) (Package.start p).

(** The JSON object [d] has no key [k]. *)
Definition lacks_key (d : json) (k : string) : Prop :=
  exists kvs, d = JObj kvs /\ assoc k kvs = None.



(** A plotting library of which only this is used: [barh] reads the
    lists made of the default colour ["#32AEE0"]. *)
Definition default_colors_only : pyplot :=
  mkplt (forallb (fun c => py_eq c (JStr Package.DEFCOLOR))) eq_refl.

(** The end-to-end scenario of the specification:
    [{"title":"T","packages":[{"label":"A","start":"01-2021","end":"03-2021"}]}] *)
Definition scenario : file :=
  Document
    (JObj [("title", JStr "T");
           ("packages",
            JArr [JObj [("label", JStr "A"); ("start", JStr "01-2021");
                        ("end", JStr "03-2021")]])]%string).

(** Two packages under one label. *)
Definition twice_A : file :=
  Document
    (JObj [("title", JStr "T");
           ("packages",
            JArr [JObj [("label", JStr "A"); ("start", JStr "01-2021");
                        ("end", JStr "03-2021")];
                  JObj [("label", JStr "A"); ("start", JStr "02-2021");
                        ("end", JStr "04-2021")]])]%string).

(** *** What the rendering steps are expected to draw *)

(** [v] if the key is there, the default otherwise. *)
Definition get_default (pkg : json) (k : string) (dflt : json) : json :=
  match getitem pkg k with
  | Ok v => v
  | Raise _ => dflt
  end.

(** One [set_label] call for each package with a legend that counts as
    true, under the position of the package, counted from [first]. *)
Definition legend_calls (first : nat) (ps : list Package.t)
    : list plot_call :=
  concat (imap (fun i p =>
                  if truthy (Package.legend p)
                  then [set_label (first + i) (Package.legend p)]
                  else []) ps).

Definition with_legend (ps : list Package.t) : list Package.t :=
  filter (fun p => truthy (Package.legend p) = true) ps.

(** The x coordinates of the milestone markers: the ordinals of the
    milestones, package by package. *)
Definition milestone_xs (ps : list Package.t) : list Z :=
  concat (map (fun p => map toordinal (Package.milestones p)) ps).

(** Their y coordinates: for the package at position [first + i] of [N],
    its slot [N - (first + i)], once for each of its milestones. *)
Definition milestone_ys (N first : nat) (ps : list Package.t) : list Z :=
  concat (imap (fun i p =>
                  replicate (length (Package.milestones p))
                            (Z.of_nat N - Z.of_nat (first + i))) ps).

(** The calls of [format] that come after [tick_params] when the start
    list is not empty and no custom ticks are given. *)
Definition axis_calls (t : Gantt.t) (lo hi : Z) : list plot_call :=
  [xlim lo hi; ylim (Gantt.nPackages t);
   yticks (Gantt.yPos t) (Gantt.labels (Gantt.loaded t));
   set_title (Gantt.title (Gantt.loaded t))]
  ++ (if truthy (Gantt.xlabel (Gantt.loaded t))
      then [set_xlabel (Gantt.xlabel (Gantt.loaded t))] else []).

(** The milestones map that the loop of [_loadData] builds: each package
    in turn assigns its milestone list under its label. *)
Definition milestones_of (ps : list Package.t)
    : list (json * list datetime) :=
  fold_left (fun d p => dict_set d (Package.label p) (Package.milestones p))
            ps [].

(** The entries of the map when no two labels are equal. *)
Definition milestone_entries (ps : list Package.t)
    : list (json * list datetime) :=
  map (fun p => (Package.label p, Package.milestones p)) ps.

(** A chart with two packages, a milestone, a legend and custom ticks,
    the second of which is not a date. *)
Definition ticked : file :=
  Document
    (JObj [("title", JStr "T");
           ("xticks", JArr [JStr "01-2021"; JStr "June"]);
           ("packages",
            JArr [JObj [("label", JStr "A"); ("start", JStr "01-2021");
                        ("end", JStr "03-2021"); ("legend", JStr "first")];
                  JObj [("label", JStr "B"); ("start", JStr "02-2021");
                        ("end", JStr "04-2021");
                        ("milestones", JArr [JStr "03-2021"])]])]%string).

(** The call that shows the legend, made when some package has one. *)
Definition legend_box (ps : list Package.t) : list plot_call :=
  match with_legend ps with
  | [] => []
  | _ :: _ => [ax_legend]
  end.

(** The calls with which [render] starts, before [format]. *)
Definition bar_calls (t : Gantt.t) : list plot_call :=
  [subplots; yaxis_grid false; xaxis_grid true;
   barh (Gantt.yPos t) (Gantt.durations t) (Gantt.start t)
        (map Package.color (Gantt.packages (Gantt.loaded t)))].

(** * The calendar *)

Lemma is_leap_spec y :
  _is_leap y = true <-> (y mod 4 = 0 /\ (y mod 100 <> 0 \/ y mod 400 = 0)).
Proof.
  unfold _is_leap. rewrite andb_true_iff, orb_true_iff, negb_true_iff.
  rewrite !Z.eqb_eq, Z.eqb_neq. tauto.
Qed.

Lemma is_leap_gregorian y :
  (y mod 400 =? 0) || ((y mod 4 =? 0) && negb (y mod 100 =? 0)) = _is_leap y.
Proof.
  unfold _is_leap.
  destruct (y mod 400 =? 0) eqn:E400, (y mod 4 =? 0) eqn:E4,
    (y mod 100 =? 0) eqn:E100; try reflexivity;
    rewrite ?Z.eqb_eq, ?Z.eqb_neq in *; exfalso;
    Z.div_mod_to_equations; lia.
Qed.

Lemma month_length_days_in_month y m :
  1 <= m <= 12 -> month_length y m = _days_in_month y m.
Proof.
  intros Hm. unfold month_length, _days_in_month.
  rewrite is_leap_gregorian.
  assert (m = 1 \/ m = 2 \/ m = 3 \/ m = 4 \/ m = 5 \/ m = 6 \/ m = 7 \/
          m = 8 \/ m = 9 \/ m = 10 \/ m = 11 \/ m = 12) as Hc by lia.
  repeat (destruct Hc as [-> | Hc]); try subst m;
    simpl; destruct (_is_leap y); reflexivity.
Qed.

Lemma days_before_year_succ y :
  _days_before_year (y + 1) =
  _days_before_year y + 365 + (if _is_leap y then 1 else 0).
Proof.
  unfold _days_before_year. cbv zeta.
  replace (y + 1 - 1) with y by lia.
  destruct (_is_leap y) eqn:L.
  - apply is_leap_spec in L. Z.div_mod_to_equations. lia.
  - assert (~ (y mod 4 = 0 /\ (y mod 100 <> 0 \/ y mod 400 = 0))) as N.
    { rewrite <- is_leap_spec. congruence. }
    Z.div_mod_to_equations. lia.
Qed.

(** One month further on the ordinal scale is that month's length. *)
Lemma ordinal_next_month i :
  toordinal (first_of_month (i + 1)) =
  toordinal (first_of_month i) + month_length (i / 12) (i mod 12 + 1).
Proof.
  unfold toordinal, first_of_month, _ymd2ord. cbn [year month day].
  rewrite month_length_days_in_month
    by (pose proof (Z.mod_pos_bound i 12); lia).
  assert (i mod 12 = 11 \/ i mod 12 < 11) as [H11 | Hlt]
    by (pose proof (Z.mod_pos_bound i 12); lia).
  - assert ((i + 1) / 12 = i / 12 + 1) as -> by (Z.div_mod_to_equations; lia).
    assert ((i + 1) mod 12 = 0) as -> by (Z.div_mod_to_equations; lia).
    rewrite H11, days_before_year_succ.
    unfold _days_before_month, _days_in_month. simpl.
    destruct (_is_leap (i / 12)), (_is_leap (i / 12 + 1)); lia.
  - assert ((i + 1) / 12 = i / 12) as -> by (Z.div_mod_to_equations; lia).
    assert ((i + 1) mod 12 = i mod 12 + 1) as ->
      by (Z.div_mod_to_equations; lia).
    pose proof (Z.mod_pos_bound i 12 ltac:(lia)) as Hb.
    set (r := i mod 12) in *.
    assert (r = 0 \/ r = 1 \/ r = 2 \/ r = 3 \/ r = 4 \/ r = 5 \/ r = 6 \/
            r = 7 \/ r = 8 \/ r = 9 \/ r = 10) as Hc by lia.
    unfold _days_before_month, _days_in_month.
    repeat (destruct Hc as [-> | Hc]); try rewrite Hc;
      simpl; destruct (_is_leap (i / 12)); simpl; lia.
Qed.

Lemma ordinal_months k : forall i,
  toordinal (first_of_month (i + Z.of_nat k)) - toordinal (first_of_month i)
  = days_of_months k i.
Proof.
  induction k as [|k IH]; intros i.
  - simpl. rewrite Z.add_0_r. lia.
  - cbn [days_of_months]. rewrite <- IH.
    replace (i + Z.of_nat (S k)) with (i + 1 + Z.of_nat k) by lia.
    rewrite (ordinal_next_month i). lia.
Qed.

Lemma first_of_month_number d :
  month_start d -> first_of_month (month_number d) = d.
Proof.
  intros [Hm Hd]. destruct d as [y m dd]. unfold month_number, first_of_month.
  cbn [year month day] in *. subst dd. f_equal; Z.div_mod_to_equations; lia.
Qed.

Lemma month_length_pos y m : 0 < month_length y m.
Proof.
  unfold month_length.
  destruct m as [|p|p]; try lia.
  repeat (destruct p as [p|p|]; try lia);
  destruct ((y mod 400 =? 0) || (y mod 4 =? 0) && negb (y mod 100 =? 0)); lia.
Qed.

Lemma days_of_months_nonneg k : forall i, 0 <= days_of_months k i.
Proof.
  induction k as [|k IH]; intros i; simpl; [lia|].
  pose proof (month_length_pos (i / 12) (i mod 12 + 1)).
  specialize (IH (i + 1)). lia.
Qed.

Lemma dt_le_month_number s e :
  month_start s -> month_start e -> dt_le s e ->
  month_number s <= month_number e.
Proof.
  intros [Hs Hsd] [He Hed] Hle. unfold dt_le, dt_compare, month_number in *.
  destruct (year s ?= year e) eqn:Hy.
  - apply Z.compare_eq in Hy.
    destruct (month s ?= month e) eqn:Hm.
    + apply Z.compare_eq in Hm. lia.
    + rewrite Z.compare_lt_iff in Hm. lia.
    + congruence.
  - rewrite Z.compare_lt_iff in Hy. lia.
  - congruence.
Qed.

(** The difference of ordinals counts the calendar days between the two
    month boundaries. *)
Lemma days_between_calendar s e :
  month_start s -> month_start e -> dt_le s e ->
  days_between e s = calendar_days s e /\ 0 <= days_between e s.
Proof.
  intros Hs He Hle.
  pose proof (dt_le_month_number s e Hs He Hle) as Hn.
  assert (days_between e s = calendar_days s e) as Heq.
  { unfold days_between, calendar_days.
    rewrite <- ordinal_months.
    rewrite Z2Nat.id by lia.
    replace (month_number s + (month_number e - month_number s))
      with (month_number e) by lia.
    rewrite !first_of_month_number by assumption. reflexivity. }
  split; [exact Heq|].
  rewrite Heq. apply days_of_months_nonneg.
Qed.

(** * Date strings *)

Lemma is_digit_cases c :
  is_digit c = true ->
  In c ["0"; "1"; "2"; "3"; "4"; "5"; "6"; "7"; "8"; "9"]%char.
Proof.
  destruct c as [[] [] [] [] [] [] [] []]; vm_compute; intros H;
    try discriminate H; tauto.
Qed.

Lemma between_1_9_cases c :
  between "1" "9" c = true ->
  In c ["1"; "2"; "3"; "4"; "5"; "6"; "7"; "8"; "9"]%char.
Proof.
  destruct c as [[] [] [] [] [] [] [] []]; vm_compute; intros H;
    try discriminate H; tauto.
Qed.

Lemma between_0_2_cases c :
  between "0" "2" c = true -> In c ["0"; "1"; "2"]%char.
Proof.
  destruct c as [[] [] [] [] [] [] [] []]; vm_compute; intros H;
    try discriminate H; tauto.
Qed.

Lemma is_digit_range c : is_digit c = true -> 0 <= digit c <= 9.
Proof.
  intros H. apply is_digit_cases in H. simpl in H.
  repeat (destruct H as [<- | H]; [vm_compute; split; discriminate|]).
  destruct H.
Qed.

Lemma digit_char_digit c : is_digit c = true -> digit_char (digit c) = c.
Proof.
  intros H. apply is_digit_cases in H. simpl in H.
  repeat (destruct H as [<- | H]; [reflexivity|]).
  destruct H.
Qed.

(** The year group: exactly a hyphen and four digits, read in base ten. *)
Lemma re_dash_Y_Some s y s' :
  re_dash_Y s = Some (y, s') <->
  exists a b c d,
    s = String "-" (String a (String b (String c (String d s')))) /\
    is_digit a = true /\ is_digit b = true /\
    is_digit c = true /\ is_digit d = true /\
    y = 1000 * digit a + 100 * digit b + 10 * digit c + digit d.
Proof.
  split.
  - destruct s as [|dash [|a [|b [|c [|d s0]]]]]; simpl; try discriminate.
    destruct (Ascii.eqb dash "-") eqn:Hd; simpl; [|discriminate].
    destruct (is_digit a) eqn:Ha; simpl; [|discriminate].
    destruct (is_digit b) eqn:Hb; simpl; [|discriminate].
    destruct (is_digit c) eqn:Hc; simpl; [|discriminate].
    destruct (is_digit d) eqn:Hdd; simpl; [|discriminate].
    intros [= <- <-]. apply Ascii.eqb_eq in Hd. subst dash.
    exists a, b, c, d. repeat split; assumption.
  - intros (a & b & c & d & -> & Ha & Hb & Hc & Hd & ->).
    simpl. rewrite Ha, Hb, Hc, Hd. reflexivity.
Qed.

Lemma decimal_4 a b c d :
  decimal (String a (String b (String c (String d EmptyString)))) =
  1000 * digit a + 100 * digit b + 10 * digit c + digit d.
Proof. unfold decimal. cbn [list_ascii_of_string fold_left]. lia. Qed.

Lemma year_text_inv y :
  year_text y = true <->
  exists a b c d,
    y = String a (String b (String c (String d EmptyString))) /\
    is_digit a = true /\ is_digit b = true /\
    is_digit c = true /\ is_digit d = true /\
    MINYEAR <= 1000 * digit a + 100 * digit b + 10 * digit c + digit d.
Proof.
  unfold year_text, all_digits, decimal. split.
  - destruct y as [|a [|b [|c [|d [|e y]]]]]; simpl; try discriminate.
    rewrite !andb_true_iff, Z.leb_le.
    intros [(Ha & Hb & Hc & Hd & _) Hy].
    exists a, b, c, d. repeat split; try assumption. lia.
  - intros (a & b & c & d & -> & Ha & Hb & Hc & Hd & Hy). simpl.
    rewrite Ha, Hb, Hc, Hd. simpl. apply Z.leb_le. lia.
Qed.

Lemma re_rest_Some alts m y s' :
  re_rest alts = Some (m, y, s') ->
  exists s0, In (m, s0) alts /\ re_dash_Y s0 = Some (y, s').
Proof.
  induction alts as [|[m0 s0] alts IH]; simpl; [discriminate|].
  destruct (re_dash_Y s0) as [[y0 s1]|] eqn:E.
  - intros [= <- <- <-]. exists s0. split; [left; reflexivity | exact E].
  - intros H. destruct (IH H) as (s2 & Hin & Hs2). exists s2. auto.
Qed.

(** Each alternative of the month group consumes one of the month
    spellings. *)
Lemma re_m_In s m s0 :
  In (m, s0) (re_m s) ->
  exists mt, In mt month_texts /\ s = mt +:+ s0 /\ m = decimal mt.
Proof.
  assert (forall c, between "1" "9" c = true ->
            In (String c EmptyString) month_texts) as One.
  { intros c H. apply between_1_9_cases in H. simpl in H.
    repeat (destruct H as [<- | H]; [simpl; tauto|]). destruct H. }
  destruct s as [|c1 [|c2 s2]]; simpl.
  - intros [].
  - destruct (between "1" "9" c1) eqn:H1; simpl; [|intros []].
    intros [[= <- <-] | []]. exists (String c1 EmptyString).
    split; [exact (One _ H1)|]. split; [reflexivity|]. unfold decimal. simpl. lia.
  - rewrite !in_app_iff. intros [[H | H] | H].
    + destruct (Ascii.eqb c1 "1") eqn:E1; simpl in H; [|destruct H].
      destruct (between "0" "2" c2) eqn:E2; simpl in H; [|destruct H].
      destruct H as [[= <- <-] | []].
      apply Ascii.eqb_eq in E1. subst c1.
      exists (String "1" (String c2 EmptyString)).
      split; [|split; [reflexivity|]].
      * apply between_0_2_cases in E2. simpl in E2.
        repeat (destruct E2 as [<- | E2]; [simpl; tauto|]). destruct E2.
      * unfold decimal. simpl. change (digit "1") with 1. lia.
    + destruct (Ascii.eqb c1 "0") eqn:E1; simpl in H; [|destruct H].
      destruct (between "1" "9" c2) eqn:E2; simpl in H; [|destruct H].
      destruct H as [[= <- <-] | []].
      apply Ascii.eqb_eq in E1. subst c1.
      exists (String "0" (String c2 EmptyString)).
      split; [|split; [reflexivity|]].
      * apply between_1_9_cases in E2. simpl in E2.
        repeat (destruct E2 as [<- | E2]; [simpl; tauto|]). destruct E2.
      * unfold decimal. simpl. change (digit "0") with 0. lia.
    + destruct (between "1" "9" c1) eqn:H1; simpl in H; [|destruct H].
      destruct H as [[= <- <-] | []]. exists (String c1 EmptyString).
      split; [exact (One _ H1)|]. split; [reflexivity|]. unfold decimal. simpl. lia.
Qed.

(** [strptime] with ["%m-%Y"] takes exactly the strings made of a month
    spelling, a hyphen and a four-digit year from 0001 on, and reads both
    numbers in base ten. *)
Lemma strptime_mY_Some s d :
  strptime_mY s = Some d <->
  exists m y, s = m +:+ "-" +:+ y /\ In m month_texts /\ year_text y = true /\
              d = mkdate (decimal y) (decimal m) 1.
Proof.
  unfold strptime_mY, re_match. split.
  - destruct (re_rest (re_m s)) as [[[m y] rest]|] eqn:E; [|discriminate].
    destruct rest; [|discriminate].
    destruct (y <? MINYEAR) eqn:Hy; [discriminate|]. intros [= <-].
    apply Z.ltb_ge in Hy.
    apply re_rest_Some in E. destruct E as (s0 & Hin & Hs0).
    apply re_m_In in Hin. destruct Hin as (mt & Hmt & -> & ->).
    apply re_dash_Y_Some in Hs0.
    destruct Hs0 as (a & b & c & e & -> & Ha & Hb & Hc & He & ->).
    exists mt, (String a (String b (String c (String e EmptyString)))).
    split; [reflexivity|]. split; [assumption|]. split.
    + apply year_text_inv. exists a, b, c, e. repeat split; assumption.
    + rewrite decimal_4. reflexivity.
  - intros (m & y & -> & Hm & Hy & ->).
    apply year_text_inv in Hy.
    destruct Hy as (a & b & c & e & -> & Ha & Hb & Hc & He & Hy).
    assert (re_dash_Y
              (String "-" (String a (String b (String c (String e EmptyString)))))
            = Some (1000 * digit a + 100 * digit b + 10 * digit c + digit e,
                    EmptyString)) as Hr.
    { apply re_dash_Y_Some. exists a, b, c, e. repeat split; assumption. }
    assert ((1000 * digit a + 100 * digit b + 10 * digit c + digit e <? MINYEAR)
            = false) as Hlt by (apply Z.ltb_ge; exact Hy).
    rewrite decimal_4.
    simpl in Hm.
    repeat (destruct Hm as [<- | Hm];
            [cbv -[re_dash_Y Z.mul Z.add Z.ltb MINYEAR digit decimal];
             rewrite Hr, Hlt; reflexivity|]).
    destruct Hm.
Qed.

Lemma format_year a b c d m :
  is_digit a = true -> is_digit b = true ->
  is_digit c = true -> is_digit d = true ->
  format_MM_YYYY
    (mkdate (1000 * digit a + 100 * digit b + 10 * digit c + digit d) m 1)
  = String (digit_char (m / 10)) (String (digit_char (m mod 10))
      (String "-" (String a (String b (String c (String d EmptyString)))))).
Proof.
  intros Ha Hb Hc Hd. unfold format_MM_YYYY. cbn [year month].
  pose proof (is_digit_range a Ha). pose proof (is_digit_range b Hb).
  pose proof (is_digit_range c Hc). pose proof (is_digit_range d Hd).
  set (y := 1000 * digit a + 100 * digit b + 10 * digit c + digit d).
  assert (y / 1000 = digit a) as -> by (subst y; Z.div_mod_to_equations; lia).
  assert (y / 100 mod 10 = digit b) as ->
    by (subst y; Z.div_mod_to_equations; lia).
  assert (y / 10 mod 10 = digit c) as ->
    by (subst y; Z.div_mod_to_equations; lia).
  assert (y mod 10 = digit d) as -> by (subst y; Z.div_mod_to_equations; lia).
  rewrite !digit_char_digit by assumption. reflexivity.
Qed.

Lemma valid_MM_YYYY_inv s :
  valid_MM_YYYY s = true ->
  exists m1 m2 a b c d,
    s = String m1 (String m2 (String "-"
          (String a (String b (String c (String d EmptyString)))))) /\
    is_digit m1 = true /\ is_digit m2 = true /\
    1 <= 10 * digit m1 + digit m2 <= 12 /\
    year_text (String a (String b (String c (String d EmptyString)))) = true.
Proof.
  unfold valid_MM_YYYY, matches_MM_YYYY, all_digits.
  destruct s as [|m1 [|m2 [|dash [|a [|b [|c [|d [|e s]]]]]]]];
    try (simpl; discriminate).
  cbn [String.length substring list_ascii_of_string forallb Nat.eqb].
  rewrite !andb_true_iff, !Z.leb_le.
  intros [[[[[[_ (H1 & H2 & _)] Hdash] (Ha & Hb & Hc & Hd & _)] Hlo] Hhi] Hy].
  assert (dash = "-"%char) as ->.
  { apply String.eqb_eq in Hdash. congruence. }
  unfold decimal in Hlo, Hhi. cbn [list_ascii_of_string fold_left] in Hlo, Hhi.
  rewrite decimal_4 in Hy.
  exists m1, m2, a, b, c, d. split; [reflexivity|].
  split; [assumption|]. split; [assumption|]. split; [lia|].
  apply year_text_inv. exists a, b, c, d. repeat split; assumption.
Qed.

Lemma two_digit_month m1 m2 :
  is_digit m1 = true -> is_digit m2 = true ->
  1 <= 10 * digit m1 + digit m2 <= 12 ->
  In (String m1 (String m2 EmptyString)) month_texts /\
  decimal (String m1 (String m2 EmptyString)) = 10 * digit m1 + digit m2 /\
  digit_char ((10 * digit m1 + digit m2) / 10) = m1 /\
  digit_char ((10 * digit m1 + digit m2) mod 10) = m2.
Proof.
  intros H1 H2 Hr.
  assert ((1 <=? 10 * digit m1 + digit m2) && (10 * digit m1 + digit m2 <=? 12)
          = true) as Hb by (apply andb_true_iff; rewrite !Z.leb_le; lia).
  clear Hr.
  apply is_digit_cases in H1. apply is_digit_cases in H2. simpl in H1, H2.
  repeat (destruct H1 as [<- | H1]);
  repeat (destruct H2 as [<- | H2]);
  try contradiction;
  vm_compute in Hb; try discriminate Hb;
  (split; [simpl; tauto | repeat split]).
Qed.

Lemma parse_date_Ok s d :
  Package._parse_date (JStr s) = Ok d <-> strptime_mY s = Some d.
Proof.
  unfold Package._parse_date. destruct (strptime_mY s); split; congruence.
Qed.

Lemma parse_date_fails s :
  strptime_mY s = None ->
  Package._parse_date (JStr s) =
  Raise (ValueError (Message (Package.date_message s))).
Proof. unfold Package._parse_date. intros ->. reflexivity. Qed.

Lemma strptime_form_accepts s :
  strptime_form s <-> exists d, strptime_mY s = Some d.
Proof.
  split.
  - intros (m & y & Hs & Hm & Hy). eexists. apply strptime_mY_Some.
    exists m, y. eauto.
  - intros (d & Hd). apply strptime_mY_Some in Hd.
    destruct Hd as (m & y & Hs & Hm & Hy & _). exists m, y. auto.
Qed.

(** A valid string parses to the month and year it spells and is written
    back unchanged. *)
Lemma valid_string_roundtrip s :
  valid_MM_YYYY s = true ->
  exists d,
    Package._parse_date (JStr s) = Ok d /\
    month d = decimal (substring 0 2 s) /\
    year d = decimal (substring 3 4 s) /\
    format_MM_YYYY d = s.
Proof.
  intros Hv. apply valid_MM_YYYY_inv in Hv.
  destruct Hv as (m1 & m2 & a & b & c & e & -> & H1 & H2 & Hr & Hy).
  destruct (two_digit_month m1 m2 H1 H2 Hr) as (Hin & Hdec & Hc1 & Hc2).
  exists (mkdate (decimal (String a (String b (String c (String e EmptyString)))))
                 (decimal (String m1 (String m2 EmptyString))) 1).
  split; [|split; [reflexivity|split; [reflexivity|]]].
  - apply parse_date_Ok. apply strptime_mY_Some.
    exists (String m1 (String m2 EmptyString)),
           (String a (String b (String c (String e EmptyString)))).
    repeat split; assumption.
  - apply year_text_inv in Hy.
    destruct Hy as (a' & b' & c' & e' & [= <- <- <- <-] & Ha & Hb & Hc & He & _).
    rewrite decimal_4, Hdec, format_year by assumption.
    rewrite Hc1, Hc2. reflexivity.
Qed.

(** * Exceptions as results *)

Lemma bind_Ok {A B} (m : result A) (f : A -> result B) (b : B) :
  m ≫= f = Ok b <-> exists a, m = Ok a /\ f a = Ok b.
Proof.
  destruct m as [a|e]; cbn.
  - split; [eauto|]. intros (a' & [= <-] & H). exact H.
  - split; [discriminate|]. intros (a' & [=] & _).
Qed.

(** [bind_inv H x Hx]: from [H : m ≫= f = Ok b], the value [x] of [m]
    with [Hx : m = Ok x], leaving [H : f x = Ok b]. *)
Ltac bind_inv H x Hx :=
  apply bind_Ok in H; destruct H as (x & Hx & H).

Lemma for_each_Ok {A B} (f : A -> result B) xs ys :
  for_each f xs = Ok ys <-> Forall2 (fun x y => f x = Ok y) xs ys.
Proof.
  revert ys. induction xs as [|x xs IH]; intros ys; cbn.
  - split.
    + intros [= <-]. constructor.
    + intros H. inversion H. reflexivity.
  - split.
    + intros H. bind_inv H y Hy.
      apply bind_Ok in H. destruct H as (ys' & Hys & [= <-]).
      constructor; [exact Hy | apply IH; exact Hys].
    + intros H. inversion H as [|x' y xs' ys' Hy Hys]; subst.
      rewrite Hy. cbn. apply IH in Hys. rewrite Hys. reflexivity.
Qed.

(** A comprehension stops at the first item that raises. *)
Lemma for_each_first_raise {A B} (f : A -> result B) pre x post ys e :
  for_each f pre = Ok ys -> f x = Raise e ->
  for_each f (pre ++ x :: post) = Raise e.
Proof.
  revert ys. induction pre as [|p pre IH]; intros ys Hpre Hx; cbn.
  - rewrite Hx. reflexivity.
  - cbn in Hpre. apply bind_Ok in Hpre. destruct Hpre as (y & Hy & H).
    apply bind_Ok in H. destruct H as (ys' & Hys & _).
    rewrite Hy. cbn. rewrite (IH ys' Hys Hx). reflexivity.
Qed.

(** * class Package *)

Lemma parse_date_str v d :
  Package._parse_date v = Ok d -> exists s, v = JStr s /\ strptime_mY s = Some d.
Proof.
  destruct v; cbn; try discriminate.
  destruct (strptime_mY s) eqn:E; [|discriminate].
  intros [= <-]. eauto.
Qed.

(** A parsed date is the first day of a month of a year from 1 on. *)
Lemma parse_date_month_start v d :
  Package._parse_date v = Ok d -> month_start d /\ MINYEAR <= year d.
Proof.
  intros H. apply parse_date_str in H. destruct H as (s & -> & H).
  apply strptime_mY_Some in H. destruct H as (m & y & _ & Hm & Hy & ->).
  unfold month_start. cbn [year month day]. split; [split|].
  - simpl in Hm.
    repeat (destruct Hm as [<- | Hm]; [vm_compute; split; discriminate|]).
    destruct Hm.
  - reflexivity.
  - unfold year_text in Hy. rewrite !andb_true_iff, Z.leb_le in Hy. tauto.
Qed.

(** What a successful construction tells about the record it was built
    from. *)
Lemma Package_init_Ok pkg p :
  Package.__init__ pkg = Ok p ->
  getitem pkg "label" = Ok (Package.label p) /\
  (exists v, getitem pkg "start" = Ok v /\
             Package._parse_date v = Ok (Package.start p)) /\
  (exists v, getitem pkg "end" = Ok v /\
             Package._parse_date v = Ok (Package.end_ p)) /\
  dt_gt (Package.start p) (Package.end_ p) = false /\
  try_except is_KeyError (getitem pkg "color") (Ok (JStr Package.DEFCOLOR))
    = Ok (Package.color p) /\
  try_except is_KeyError (getitem pkg "legend") (Ok JNull)
    = Ok (Package.legend p).
Proof.
  unfold Package.__init__. intros H.
  bind_inv H l Hl.
  bind_inv H s Hs.
  bind_inv Hs vs Hvs.
  bind_inv H e He.
  bind_inv He ve Hve.
  destruct (dt_gt s e) eqn:Hgt; [discriminate|].
  bind_inv H ms Hms.
  bind_inv H c Hc.
  apply bind_Ok in H. destruct H as (lg & Hlg & [= <-]).
  cbn. eauto 10.
Qed.

Lemma dt_gt_false_le a b : dt_gt a b = false <-> dt_le a b.
Proof.
  unfold dt_gt, dt_le. destruct (dt_compare a b); split; congruence.
Qed.

Lemma not_form_rejected s : ~ strptime_form s -> strptime_mY s = None.
Proof.
  intros H. destruct (strptime_mY s) as [d|] eqn:E; [|reflexivity].
  exfalso. apply H. apply strptime_form_accepts. eauto.
Qed.

(** C3, as stated, fails: ["1-2021"] is not of the form "MM-YYYY", yet
    it is parsed (as January 2021) and a package is built from it. *)
Lemma one_digit_month_accepted :
  matches_MM_YYYY "1-2021" = false /\
  Package._parse_date (JStr "1-2021") = Ok (mkdate 2021 1 1) /\
  Package.__init__
    (JObj [("label", JStr "A"); ("start", JStr "1-2021");
           ("end", JStr "03-2021")]%string)
  = Ok (Package.mk (JStr "A") (mkdate 2021 1 1) (mkdate 2021 3 1) []
          (JStr "#32AEE0") JNull).
Proof. repeat split; reflexivity. Qed.

(** C3 (amended): a date string that is not a month spelled [1]..[9],
    [01]..[09] or [10]..[12], a hyphen and a four-digit year from 0001 on
    is refused with the [ValueError] that quotes it, a FormatError; and
    the construction of a package fails with that error when the string
    is its [start], its [end] (the start being accepted), or the first
    refused item of its [milestones] (start and end accepted and in
    order). *)
Theorem malformed_date_rejected (s : string) (Hs : ~ strptime_form s) :
  let err :=
    ValueError (Message ("Date format for " +:+ s +:+ " should be MM-YYYY")) in
  has_kind err (FormatError s) /\
  Package._parse_date (JStr s) = Raise err /\
  (forall pkg l,
     getitem pkg "label" = Ok l -> getitem pkg "start" = Ok (JStr s) ->
     Package.__init__ pkg = Raise err) /\
  (forall pkg l v d,
     getitem pkg "label" = Ok l ->
     getitem pkg "start" = Ok v -> Package._parse_date v = Ok d ->
     getitem pkg "end" = Ok (JStr s) ->
     Package.__init__ pkg = Raise err) /\
  (forall pkg l v1 d1 v2 d2 ms pre post ds,
     getitem pkg "label" = Ok l ->
     getitem pkg "start" = Ok v1 -> Package._parse_date v1 = Ok d1 ->
     getitem pkg "end" = Ok v2 -> Package._parse_date v2 = Ok d2 ->
     dt_le d1 d2 ->
     getitem pkg "milestones" = Ok ms -> iter ms = Ok (pre ++ JStr s :: post) ->
     for_each Package._parse_date pre = Ok ds ->
     Package.__init__ pkg = Raise err).
Proof.
  intros err. pose proof (parse_date_fails s (not_form_rejected s Hs)) as Hp.
  change (Package._parse_date (JStr s) = Raise err) in Hp.
  split; [apply format_error|]. split; [exact Hp|]. split; [|split].
  - intros pkg l Hl Hst. unfold Package.__init__.
    rewrite Hl, Hst. cbn -[Package._parse_date]. rewrite Hp. reflexivity.
  - intros pkg l v d Hl Hst Hd Hen. unfold Package.__init__.
    rewrite Hl, Hst, Hen. cbn -[Package._parse_date]. rewrite Hd, Hp. reflexivity.
  - intros pkg l v1 d1 v2 d2 ms pre post ds
      Hl Hst Hd1 Hen Hd2 Hle Hms Hit Hpre.
    unfold Package.__init__.
    rewrite Hl, Hst, Hen. cbn -[Package._parse_date].
    rewrite Hd1, Hd2. cbn -[Package._parse_date].
    apply dt_gt_false_le in Hle. rewrite Hle, Hms.
    cbn -[Package._parse_date]. rewrite Hit. cbn -[Package._parse_date].
    rewrite (for_each_first_raise _ pre (JStr s) post ds err Hpre Hp).
    reflexivity.
Qed.

Lemma malformed_date_rejected_witness :
  Package._parse_date (JStr "2020-01") =
  Raise (ValueError (Message "Date format for 2020-01 should be MM-YYYY")).
Proof.
  refine (proj1 (proj2 (malformed_date_rejected "2020-01" _))).
  intros H. apply strptime_form_accepts in H. destruct H as [d H].
  vm_compute in H. discriminate H.
Defined.

(** C4: when the parsed start is strictly after the parsed end the
    construction fails with [ValueError("Cannot end before started")], a
    ValidationError; and a package that was constructed has
    [start <= end]. *)
Theorem start_after_end_rejected :
  (forall pkg l v1 s v2 e,
     getitem pkg "label" = Ok l ->
     getitem pkg "start" = Ok v1 -> Package._parse_date v1 = Ok s ->
     getitem pkg "end" = Ok v2 -> Package._parse_date v2 = Ok e ->
     dt_compare s e = Gt ->
     Package.__init__ pkg =
       Raise (ValueError (Message "Cannot end before started")) /\
     has_kind (ValueError (Message "Cannot end before started"))
              ValidationError) /\
  (forall pkg p,
     Package.__init__ pkg = Ok p ->
     dt_le (Package.start p) (Package.end_ p) /\
     toordinal (Package.start p) <= toordinal (Package.end_ p)).
Proof.
  split.
  - intros pkg l v1 s v2 e Hl Hst Hs Hen He Hgt. split; [|constructor].
    unfold Package.__init__. rewrite Hl, Hst, Hen.
    cbn -[Package._parse_date]. rewrite Hs, He. cbn -[Package._parse_date].
    unfold dt_gt. rewrite Hgt. reflexivity.
  - intros pkg p H. apply Package_init_Ok in H.
    destruct H as (_ & (v1 & _ & H1) & (v2 & _ & H2) & Hgt & _).
    apply dt_gt_false_le in Hgt. split; [exact Hgt|].
    apply parse_date_month_start in H1, H2.
    pose proof (days_between_calendar _ _ (proj1 H1) (proj1 H2) Hgt) as [_ H].
    unfold days_between in H. lia.
Qed.

Lemma start_after_end_rejected_witness :
  Package.__init__
    (JObj [("label", JStr "A"); ("start", JStr "03-2021");
           ("end", JStr "01-2021")]%string)
  = Raise (ValueError (Message "Cannot end before started")) /\
  dt_le (mkdate 2021 1 1) (mkdate 2021 3 1).
Proof.
  split.
  - refine (proj1 (proj1 start_after_end_rejected
      (JObj [("label", JStr "A"); ("start", JStr "03-2021");
             ("end", JStr "01-2021")]%string)
      (JStr "A") (JStr "03-2021") (mkdate 2021 3 1)
      (JStr "01-2021") (mkdate 2021 1 1) _ _ _ _ _ _)); reflexivity.
  - refine (proj1 (proj2 start_after_end_rejected
      (JObj [("label", JStr "A"); ("start", JStr "01-2021");
             ("end", JStr "03-2021")]%string)
      (Package.mk (JStr "A") (mkdate 2021 1 1) (mkdate 2021 3 1) []
         (JStr "#32AEE0") JNull) _)).
    reflexivity.
Defined.

Lemma valid_MM_YYYY_intro m1 m2 a b c d :
  is_digit m1 = true -> is_digit m2 = true ->
  1 <= 10 * digit m1 + digit m2 <= 12 ->
  year_text (String a (String b (String c (String d EmptyString)))) = true ->
  valid_MM_YYYY
    (String m1 (String m2 (String "-"
       (String a (String b (String c (String d EmptyString)))))))
  = true.
Proof.
  intros H1 H2 Hr Hy. apply year_text_inv in Hy.
  destruct Hy as (a' & b' & c' & d' & [= <- <- <- <-] & Ha & Hb & Hc & Hd & Hy).
  unfold valid_MM_YYYY, matches_MM_YYYY, all_digits.
  cbn [String.length substring list_ascii_of_string forallb Nat.eqb].
  rewrite decimal_4, H1, H2, Ha, Hb, Hc, Hd.
  unfold decimal. cbn [list_ascii_of_string fold_left andb String.eqb].
  rewrite Ascii.eqb_refl. cbn [andb].
  rewrite !andb_true_iff, !Z.leb_le. lia.
Qed.

(** Whatever spelling was parsed, the date writes back as a valid
    "MM-YYYY" string that parses to the same date. *)
Lemma format_parsed s d :
  strptime_mY s = Some d ->
  valid_MM_YYYY (format_MM_YYYY d) = true /\
  strptime_mY (format_MM_YYYY d) = Some d.
Proof.
  intros H. apply strptime_mY_Some in H.
  destruct H as (m & y & _ & Hm & Hy & ->).
  pose proof Hy as Hy'. apply year_text_inv in Hy'.
  destruct Hy' as (a & b & c & e & -> & Ha & Hb & Hc & He & Hmin).
  rewrite decimal_4, format_year by assumption.
  assert (exists m1 m2,
            is_digit m1 = true /\ is_digit m2 = true /\
            1 <= 10 * digit m1 + digit m2 <= 12 /\
            decimal m = 10 * digit m1 + digit m2 /\
            digit_char (decimal m / 10) = m1 /\
            digit_char (decimal m mod 10) = m2)
    as (m1 & m2 & H1 & H2 & Hr & Hd & -> & ->).
  { simpl in Hm.
    repeat (destruct Hm as [<- | Hm];
            [eexists _, _; repeat split; try reflexivity;
             vm_compute; congruence|]).
    destruct Hm. }
  split.
  - apply valid_MM_YYYY_intro; assumption.
  - apply strptime_mY_Some.
    destruct (two_digit_month _ _ H1 H2 Hr) as (Hin & Hdec & _).
    exists (String m1 (String m2 EmptyString)),
           (String a (String b (String c (String e EmptyString)))).
    split; [reflexivity|]. split; [exact Hin|].
    split; [exact Hy|]. rewrite decimal_4, Hdec, Hd. reflexivity.
Qed.

(** C7: a valid "MM-YYYY" string (month 01 to 12, year 0001 to 9999) is
    parsed to the date with that month and year, and writing the date back
    as "MM-YYYY" gives the string again; for any string the parser takes,
    also one with a one-digit month, the date written back is a valid
    "MM-YYYY" string that parses to the same date. *)
Theorem parse_format_roundtrip :
  (forall s,
     valid_MM_YYYY s = true ->
     exists d,
       Package._parse_date (JStr s) = Ok d /\
       month d = decimal (substring 0 2 s) /\
       year d = decimal (substring 3 4 s) /\
       format_MM_YYYY d = s) /\
  (forall s d,
     Package._parse_date (JStr s) = Ok d ->
     valid_MM_YYYY (format_MM_YYYY d) = true /\
     Package._parse_date (JStr (format_MM_YYYY d)) = Ok d).
Proof.
  split.
  - exact valid_string_roundtrip.
  - intros s d H. apply parse_date_Ok in H. apply format_parsed in H.
    destruct H as [Hv Hp]. split; [exact Hv|]. apply parse_date_Ok. exact Hp.
Qed.

Lemma parse_format_roundtrip_witness :
  exists d,
    Package._parse_date (JStr "03-2021") = Ok d /\
    month d = 3 /\ year d = 2021 /\ format_MM_YYYY d = "03-2021"%string.
Proof.
  exact (proj1 parse_format_roundtrip "03-2021"%string eq_refl).
Defined.

(** * Equality of labels, [list.index], dict assignment *)

Lemma py_eq_refl a : hashable a = true -> py_eq a a = true.
Proof.
  destruct a; cbn; try discriminate; intros _.
  - reflexivity.
  - destruct b; reflexivity.
  - apply Z.eqb_refl.
  - apply String.eqb_refl.
Qed.

Lemma py_eq_trans a b c :
  hashable b = true ->
  py_eq a b = true -> py_eq b c = true -> py_eq a c = true.
Proof.
  intros Hb. destruct b; cbn in Hb; try discriminate;
    destruct a; cbn; try discriminate;
    destruct c; cbn; try discriminate;
    rewrite ?String.eqb_eq, ?Z.eqb_eq, ?Bool.eqb_true_iff;
    try congruence;
    repeat match goal with b : bool |- _ => destruct b end;
    cbn; lia.
Qed.

Lemma index_lt l x i : index l x = Some i -> (i < length l)%nat.
Proof.
  revert i. induction l as [|y l IH]; intros i; cbn; [discriminate|].
  destruct (py_eq y x).
  - intros [= <-]. lia.
  - destruct (index l x) as [k|]; cbn; [|discriminate].
    intros [= <-]. specialize (IH k eq_refl). lia.
Qed.

(** [l.index(x)] is the first position that holds something equal to
    [x]. *)
Lemma index_Some l x i :
  index l x = Some i <->
  (exists y, l !! i = Some y /\ py_eq y x = true) /\
  (forall k z, (k < i)%nat -> l !! k = Some z -> py_eq z x = false).
Proof.
  revert i. induction l as [|y l IH]; intros i; cbn.
  - split; [discriminate|]. intros [(z & Hz & _) _]. discriminate.
  - destruct (py_eq y x) eqn:E.
    + split.
      * intros [= <-]. split; [exists y; auto|]. intros k z Hk. lia.
      * intros [(z & Hz & Hzx) Hfirst]. destruct i as [|i]; [reflexivity|].
        specialize (Hfirst 0%nat y ltac:(lia) eq_refl). congruence.
    + destruct (index l x) as [k|]; cbn.
      * split.
        -- intros [= <-]. destruct (proj1 (IH k) eq_refl) as [Hy Hfirst].
           split; [exact Hy|]. intros [|k'] z Hk Hz; cbn in Hz.
           ++ congruence.
           ++ apply (Hfirst k' z); [lia | exact Hz].
        -- intros [(z & Hz & Hzx) Hfirst]. destruct i as [|i].
           ++ cbn in Hz. congruence.
           ++ assert (Some k = Some i) as Hi; [|congruence].
              apply IH. split; [exists z; auto|].
              intros k' z' Hk' Hz'. apply (Hfirst (S k') z'); [lia | exact Hz'].
      * split; [discriminate|]. intros [(z & Hz & Hzx) Hfirst].
        destruct i as [|i]; cbn in Hz; [congruence|].
        assert (None = Some i) as Hi; [|discriminate].
        apply IH. split; [exists z; auto|].
        intros k' z' Hk' Hz'. apply (Hfirst (S k') z'); [lia | exact Hz'].
Qed.

(** An item of the list is found, at its position or before. *)
Lemma index_found l x i y :
  l !! i = Some y -> py_eq y x = true ->
  exists k, index l x = Some k /\ (k <= i)%nat.
Proof.
  revert i. induction l as [|z l IH]; intros i Hi Hy; [discriminate|].
  cbn. destruct (py_eq z x) eqn:E.
  - exists 0%nat. split; [reflexivity | lia].
  - destruct i as [|i]; cbn in Hi; [congruence|].
    destruct (IH i Hi Hy) as (k & -> & Hk). exists (S k).
    split; [reflexivity | lia].
Qed.

(** With pairwise different labels each label is found at its own
    position. *)
Lemma index_distinct l i x :
  Forall (fun a => hashable a = true) l -> distinct_labels l ->
  l !! i = Some x -> index l x = Some i.
Proof.
  intros Hh Hd Hi.
  assert (hashable x = true) as Hx.
  { rewrite Forall_forall in Hh. apply Hh.
    eapply list_elem_of_lookup_2; eauto. }
  destruct (index_found l x i x Hi (py_eq_refl x Hx)) as (k & Hk & Hle).
  destruct (Nat.eq_dec k i) as [->|Hne]; [exact Hk|].
  exfalso. apply (Hd k i). split; [lia|].
  apply index_Some in Hk. destruct Hk as [(y & Hy & Hyx) _].
  exists y, x. auto.
Qed.

(** The position of a later duplicate is nobody's index. *)
Lemma index_skips_duplicate l i j x :
  Forall (fun a => hashable a = true) l -> duplicate_at l i j ->
  index l x <> Some j.
Proof.
  intros Hh (Hij & a & b & Ha & Hb & Hab) Hx.
  apply index_Some in Hx. destruct Hx as [(y & Hy & Hyx) Hfirst].
  assert (y = b) as -> by congruence.
  assert (hashable b = true) as Hhb.
  { rewrite Forall_forall in Hh. apply Hh.
    eapply list_elem_of_lookup_2; eauto. }
  pose proof (py_eq_trans a b x Hhb Hab Hyx) as Hax.
  rewrite (Hfirst i a Hij Ha) in Hax. discriminate.
Qed.

Lemma dict_set_has {V} (d : list (json * V)) k (v : V) :
  hashable k = true -> dict_has (dict_set d k v) k.
Proof.
  intros Hk. induction d as [|[k' v'] d IH]; cbn.
  - exists v. cbn. rewrite py_eq_refl by exact Hk. reflexivity.
  - destruct (py_eq k' k) eqn:E; cbn.
    + exists v. cbn. rewrite E. reflexivity.
    + destruct IH as [w Hw]. exists w. cbn. rewrite E. exact Hw.
Qed.

Lemma dict_set_keeps {V} (d : list (json * V)) k (v : V) k0 :
  dict_has d k0 -> dict_has (dict_set d k v) k0.
Proof.
  induction d as [|[k' v'] d IH]; cbn; intros [w Hw]; [discriminate|].
  cbn in Hw. destruct (py_eq k' k) eqn:E; cbn.
  - destruct (py_eq k' k0) eqn:E0.
    + exists v. cbn. rewrite E0. reflexivity.
    + exists w. cbn. rewrite E0. exact Hw.
  - destruct (py_eq k' k0) eqn:E0.
    + exists v'. cbn. rewrite E0. reflexivity.
    + destruct (IH (ex_intro _ w Hw)) as [w' Hw']. exists w'. cbn.
      rewrite E0. exact Hw'.
Qed.

Lemma dict_set_nonempty {V} (d : list (json * V)) k (v : V) :
  dict_set d k v <> [].
Proof. destruct d as [|[k' v'] d]; cbn; [|destruct (py_eq k' k)]; discriminate. Qed.

(** * Gantt._loadData *)

Lemma milestones_loop ps : forall d0 ms,
  for_fold
    (fun ms pkg =>
       try_except is_AttributeError
         (dict_setitem ms (Package.label pkg) (Package.milestones pkg))
         (Ok ms)) ps d0 = Ok ms ->
  Forall (fun p => hashable (Package.label p) = true) ps /\
  (forall k, dict_has d0 k -> dict_has ms k) /\
  (forall p, p ∈ ps -> dict_has ms (Package.label p)) /\
  (d0 <> [] \/ ps <> [] -> ms <> []).
Proof.
  induction ps as [|p ps IH]; intros d0 ms; cbn.
  - intros [= <-]. split; [constructor|]. split; [auto|]. split.
    + intros p Hp. inversion Hp.
    + intros [H | H]; [exact H | congruence].
  - unfold dict_setitem. destruct (hashable (Package.label p)) eqn:Hh; cbn;
      [|discriminate].
    intros H. apply IH in H. destruct H as (Hall & Hkeep & Hin & Hne).
    split; [constructor; assumption|]. split; [|split].
    + intros k Hk. apply Hkeep. apply dict_set_keeps. exact Hk.
    + intros q Hq. apply elem_of_cons in Hq. destruct Hq as [-> | Hq].
      * apply Hkeep. apply dict_set_has. exact Hh.
      * apply Hin. exact Hq.
    + intros _. apply Hne. left. apply dict_set_nonempty.
Qed.

(** What a successful load tells about the document and the attributes
    it sets. *)
Lemma loadData_Ok f g :
  Gantt._loadData f = Ok g ->
  exists d items,
    f = Document d /\
    getitem d "title" = Ok (Gantt.title g) /\
    getitem d "packages" ≫= iter = Ok items /\
    Forall2 (fun item p => Package.__init__ item = Ok p)
            items (Gantt.packages g) /\
    Gantt.labels g = map Package.label (Gantt.packages g) /\
    Forall (fun l => hashable l = true) (Gantt.labels g) /\
    (forall p, p ∈ Gantt.packages g ->
               dict_has (Gantt.milestones g) (Package.label p)) /\
    (Gantt.packages g <> [] -> Gantt.milestones g <> []).
Proof.
  unfold Gantt._loadData. intros H.
  bind_inv H d Hd.
  destruct f as [| | |d']; try discriminate. cbn in Hd. injection Hd as ->.
  bind_inv H t Ht.
  bind_inv H ps Hps.
  bind_inv Hps v Hv.
  bind_inv Hps items Hitems.
  bind_inv H ls Hls.
  rewrite Hv in Hls. cbn in Hls. rewrite Hitems in Hls. cbn in Hls.
  bind_inv H ms Hms.
  bind_inv H xl Hxl.
  apply bind_Ok in H. destruct H as (xt & Hxt & [= <-]).
  cbn [Gantt.title Gantt.packages Gantt.labels Gantt.milestones].
  apply for_each_Ok in Hps. apply for_each_Ok in Hls.
  apply milestones_loop in Hms. destruct Hms as (Hall & _ & Hin & Hne).
  assert (ls = map Package.label ps) as ->.
  { clear -Hps Hls. revert ls Hls.
    induction Hps as [|item p items ps Hp _ IH]; intros ls Hls.
    - inversion Hls. reflexivity.
    - inversion Hls as [|? l ? ls' Hl Hls']; subst. cbn.
      apply Package_init_Ok in Hp. destruct Hp as (Hlab & _).
      rewrite Hlab in Hl. injection Hl as <-. f_equal. apply IH. exact Hls'. }
  exists d, items. split; [reflexivity|]. split; [exact Ht|]. split.
  { rewrite Hv. cbn. exact Hitems. }
  split; [exact Hps|]. split; [reflexivity|]. split.
  { rewrite Forall_fmap. exact Hall. }
  split; [exact Hin|]. intros Hn. apply Hne. right. exact Hn.
Qed.

(** * Gantt._procData *)

Section Slots.

Variable labels : list json.

Lemma place_Ok st en p i :
  index labels (Package.label p) = Some i ->
  length st = length labels -> length en = length labels ->
  Gantt.place labels (st, en) p =
  Ok (<[i := Some (Package.start p)]> st, <[i := Some (Package.end_ p)]> en).
Proof.
  intros Hi Hst Hen. pose proof (index_lt _ _ _ Hi) as Hlt.
  apply Nat.ltb_lt in Hlt.
  unfold Gantt.place, list_index, list_setitem. rewrite Hi.
  cbn -[Nat.ltb]. rewrite Hst, Hen, Hlt. reflexivity.
Qed.

(** The loop over the packages: it runs to its end when every label is
    found; a slot that is nobody's index keeps its content; a slot holds
    the dates of the last package that has it as index. *)
Lemma place_loop ps : forall st en,
  length st = length labels -> length en = length labels ->
  (forall p, p ∈ ps -> exists i, index labels (Package.label p) = Some i) ->
  exists st' en',
    for_fold (Gantt.place labels) ps (st, en) = Ok (st', en') /\
    length st' = length labels /\ length en' = length labels /\
    (forall j,
       (forall p, p ∈ ps -> index labels (Package.label p) <> Some j) ->
       st' !! j = st !! j /\ en' !! j = en !! j) /\
    (forall j p ps1 ps2,
       ps = ps1 ++ p :: ps2 ->
       index labels (Package.label p) = Some j ->
       (forall q, q ∈ ps2 -> index labels (Package.label q) <> Some j) ->
       st' !! j = Some (Some (Package.start p)) /\
       en' !! j = Some (Some (Package.end_ p))).
Proof.
  induction ps as [|p0 ps IH]; intros st en Hst Hen Hfound.
  - exists st, en. cbn. split; [reflexivity|]. split; [exact Hst|].
    split; [exact Hen|]. split; [intros; split; reflexivity|].
    intros j p ps1 ps2 H. destruct ps1; discriminate.
  - destruct (Hfound p0 ltac:(left)) as [i0 Hi0].
    pose proof (index_lt _ _ _ Hi0) as Hlt0.
    cbn [for_fold]. rewrite (place_Ok st en p0 i0 Hi0 Hst Hen). cbn.
    destruct (IH (<[i0 := Some (Package.start p0)]> st)
                 (<[i0 := Some (Package.end_ p0)]> en))
      as (st' & en' & Hrun & Hst' & Hen' & Hkeep & Hlast).
    { rewrite length_insert. exact Hst. }
    { rewrite length_insert. exact Hen. }
    { intros p Hp. apply Hfound. right. exact Hp. }
    exists st', en'. split; [exact Hrun|]. split; [exact Hst'|].
    split; [exact Hen'|]. split.
    + intros j Hj.
      destruct (Hkeep j) as [Hs He].
      { intros p Hp. apply Hj. right. exact Hp. }
      assert (i0 <> j) as Hne.
      { intros ->. apply (Hj p0); [left | exact Hi0]. }
      rewrite Hs, He, !list_lookup_insert_ne by exact Hne. split; reflexivity.
    + intros j p ps1 ps2 Hsplit Hj Hrest.
      destruct ps1 as [|p1 ps1]; cbn in Hsplit; injection Hsplit as -> ->.
      * destruct (Hkeep j Hrest) as [Hs He].
        assert (i0 = j) as -> by congruence.
        rewrite Hs, He, !list_lookup_insert_eq by lia. split; reflexivity.
      * apply (Hlast j p ps1 ps2 eq_refl Hj Hrest).
Qed.

End Slots.

Lemma labels_found ps p :
  Forall (fun l => hashable l = true) (map Package.label ps) ->
  p ∈ ps -> exists i, index (map Package.label ps) (Package.label p) = Some i.
Proof.
  intros Hh Hp. apply list_elem_of_lookup in Hp. destruct Hp as [k Hk].
  assert (map Package.label ps !! k = Some (Package.label p)) as Hl.
  { rewrite list_lookup_fmap, Hk. reflexivity. }
  assert (hashable (Package.label p) = true) as Hhp.
  { rewrite Forall_forall in Hh. apply Hh.
    eapply list_elem_of_lookup_2; eauto. }
  destruct (index_found _ _ _ _ Hl (py_eq_refl _ Hhp)) as (i & Hi & _).
  eauto.
Qed.

(** With pairwise different labels every package lands in the slot of
    its own position. *)
Lemma slots_distinct ps :
  Forall (fun l => hashable l = true) (map Package.label ps) ->
  distinct_labels (map Package.label ps) ->
  for_fold (Gantt.place (map Package.label ps)) ps
    (replicate (length (map Package.label ps)) None,
     replicate (length (map Package.label ps)) None)
  = Ok (map (fun p => Some (Package.start p)) ps,
        map (fun p => Some (Package.end_ p)) ps).
Proof.
  intros Hh Hd. set (labels := map Package.label ps).
  destruct (place_loop labels ps (replicate (length labels) None)
              (replicate (length labels) None))
    as (st & en & Hrun & Hst & Hen & _ & Hlast).
  { apply length_replicate. }
  { apply length_replicate. }
  { intros p Hp. apply labels_found; assumption. }
  rewrite Hrun. f_equal.
  assert (forall j p, ps !! j = Some p ->
            st !! j = Some (Some (Package.start p)) /\
            en !! j = Some (Some (Package.end_ p))) as Hslot.
  { intros j p Hj.
    assert (forall k q, ps !! k = Some q ->
              index labels (Package.label q) = Some k) as Hown.
    { intros k q Hk. apply index_distinct; try assumption.
      unfold labels. rewrite list_lookup_fmap, Hk. reflexivity. }
    apply (Hlast j p (take j ps) (drop (S j) ps)).
    - symmetry. apply take_drop_middle. exact Hj.
    - apply Hown. exact Hj.
    - intros q Hq. apply list_elem_of_lookup in Hq. destruct Hq as [k Hk].
      rewrite lookup_drop in Hk. rewrite (Hown _ _ Hk). intros [= E]. lia. }
  assert (length labels = length ps) as Hlen by apply length_map.
  f_equal; apply list_eq; intros j; rewrite list_lookup_fmap;
    destruct (ps !! j) as [p|] eqn:Hj; cbn.
  - apply (Hslot j p Hj).
  - apply lookup_ge_None. apply lookup_ge_None in Hj. lia.
  - apply (Hslot j p Hj).
  - apply lookup_ge_None. apply lookup_ge_None in Hj. lia.
Qed.

Lemma durations_of_slots ps :
  for_each Gantt.sub_days
    (zip (map (fun p => Some (Package.start p)) ps)
         (map (fun p => Some (Package.end_ p)) ps))
  = Ok (map duration ps).
Proof.
  induction ps as [|p ps IH]; cbn; [reflexivity|].
  cbn in IH. rewrite IH. reflexivity.
Qed.

Lemma ordinals_of_slots (f : Package.t -> datetime) ps :
  for_each Gantt.ordinal_of (map (fun p => Some (f p)) ps)
  = Ok (map (fun p => toordinal (f p)) ps).
Proof.
  induction ps as [|p ps IH]; cbn; [reflexivity|].
  cbn in IH. rewrite IH. reflexivity.
Qed.

(** A comprehension whose only failure is [TypeError] and that meets a
    failing item raises [TypeError]. *)
Lemma for_each_TypeError {A B} (f : A -> result B) xs j x :
  (forall y e, f y = Raise e -> e = TypeError) ->
  xs !! j = Some x -> f x = Raise TypeError ->
  for_each f xs = Raise TypeError.
Proof.
  intros Honly. revert j. induction xs as [|y xs IH]; intros j Hj Hx;
    [discriminate|]. cbn.
  destruct (f y) as [b|e] eqn:Ey; cbn.
  - destruct j as [|j]; cbn in Hj; [congruence|].
    rewrite (IH j Hj Hx). reflexivity.
  - rewrite (Honly y e Ey). reflexivity.
Qed.

Lemma sub_days_TypeError se e : Gantt.sub_days se = Raise e -> e = TypeError.
Proof. destruct se as [[s|] [e'|]]; cbn; congruence. Qed.

(** Process, for pairwise different labels. *)
Lemma procData_distinct g :
  Gantt.labels g = map Package.label (Gantt.packages g) ->
  Forall (fun l => hashable l = true) (Gantt.labels g) ->
  distinct_labels (Gantt.labels g) ->
  Gantt._procData g =
  Ok (Gantt.mk g (length (Gantt.packages g))
        (map (fun p => toordinal (Package.start p)) (Gantt.packages g))
        (map (fun p => toordinal (Package.end_ p)) (Gantt.packages g))
        (map duration (Gantt.packages g))
        (arange (Z.of_nat (length (Gantt.packages g))) 0 (-1))).
Proof.
  intros Hl Hh Hd. unfold Gantt._procData. rewrite Hl in *.
  rewrite (slots_distinct _ Hh Hd). cbn -[arange].
  rewrite durations_of_slots. cbn -[arange].
  rewrite !ordinals_of_slots. cbn -[arange].
  rewrite length_map. reflexivity.
Qed.

(** Process, when a label occurs twice: the slots of the later position
    are never written and the durations cannot be computed. *)
Lemma procData_duplicate g i j :
  Gantt.labels g = map Package.label (Gantt.packages g) ->
  Forall (fun l => hashable l = true) (Gantt.labels g) ->
  duplicate_at (Gantt.labels g) i j ->
  (exists st en,
     for_fold (Gantt.place (Gantt.labels g)) (Gantt.packages g)
       (replicate (length (Gantt.labels g)) None,
        replicate (length (Gantt.labels g)) None) = Ok (st, en) /\
     st !! j = Some None /\ en !! j = Some None) /\
  Gantt._procData g = Raise TypeError.
Proof.
  intros Hl Hh Hdup.
  set (n := length (Gantt.labels g)).
  destruct (place_loop (Gantt.labels g) (Gantt.packages g)
              (replicate n None) (replicate n None))
    as (st & en & Hrun & Hst & Hen & Hkeep & _).
  { apply length_replicate. }
  { apply length_replicate. }
  { intros p Hp. rewrite Hl. apply labels_found; [rewrite <- Hl|]; assumption. }
  assert (j < n)%nat as Hj.
  { destruct Hdup as (_ & a & b & _ & Hb & _).
    apply lookup_lt_Some in Hb. exact Hb. }
  destruct (Hkeep j) as [Hs He].
  { intros p _. apply (index_skips_duplicate _ i); assumption. }
  rewrite lookup_replicate_2 in Hs, He by exact Hj.
  split; [exists st, en; auto|].
  unfold Gantt._procData. fold n. rewrite Hrun. cbn [mbind result_bind fst snd].
  rewrite (for_each_TypeError Gantt.sub_days (zip st en) j (None, None)).
  - reflexivity.
  - apply sub_days_TypeError.
  - rewrite lookup_zip_with, Hs, He. reflexivity.
  - reflexivity.
Qed.

(** Process runs to its end exactly when the labels are pairwise
    different. *)
Lemma procData_Ok g t :
  Gantt.labels g = map Package.label (Gantt.packages g) ->
  Forall (fun l => hashable l = true) (Gantt.labels g) ->
  Gantt._procData g = Ok t ->
  distinct_labels (Gantt.labels g) /\
  t = Gantt.mk g (length (Gantt.packages g))
        (map (fun p => toordinal (Package.start p)) (Gantt.packages g))
        (map (fun p => toordinal (Package.end_ p)) (Gantt.packages g))
        (map duration (Gantt.packages g))
        (arange (Z.of_nat (length (Gantt.packages g))) 0 (-1)).
Proof.
  intros Hl Hh Ht.
  assert (distinct_labels (Gantt.labels g)) as Hd.
  { intros i j Hdup.
    destruct (procData_duplicate g i j Hl Hh Hdup) as [_ Hr]. congruence. }
  split; [exact Hd|].
  rewrite (procData_distinct g Hl Hh Hd) in Ht. congruence.
Qed.

(** * Gantt.__init__ *)

(** A constructed chart: the document loaded, its labels are pairwise
    different, and every derived attribute is read off the packages in
    document order. *)
Lemma Gantt_init_Ok f t :
  Gantt.__init__ f = Ok t ->
  Gantt._loadData f = Ok (Gantt.loaded t) /\
  distinct_labels (Gantt.labels (Gantt.loaded t)) /\
  t = Gantt.mk (Gantt.loaded t)
        (length (Gantt.packages (Gantt.loaded t)))
        (map (fun p => toordinal (Package.start p))
             (Gantt.packages (Gantt.loaded t)))
        (map (fun p => toordinal (Package.end_ p))
             (Gantt.packages (Gantt.loaded t)))
        (map duration (Gantt.packages (Gantt.loaded t)))
        (arange (Z.of_nat (length (Gantt.packages (Gantt.loaded t)))) 0 (-1)).
Proof.
  unfold Gantt.__init__. intros H. apply bind_Ok in H.
  destruct H as (g & Hg & Ht).
  destruct (loadData_Ok f g Hg) as (d & items & _ & _ & _ & _ & Hl & Hh & _).
  destruct (procData_Ok g t Hl Hh Ht) as [Hd ->]. cbn [Gantt.loaded].
  auto.
Qed.

Lemma arange_down n :
  arange (Z.of_nat n) 0 (-1) =
  map (fun i => Z.of_nat n - Z.of_nat i) (seq 0 n).
Proof.
  unfold arange.
  replace (- ((Z.of_nat n - 0) / -1)) with (Z.of_nat n)
    by (Z.div_mod_to_equations; lia).
  rewrite Nat2Z.id. apply map_ext. intros i. lia.
Qed.



Lemma loaded_packages f g p :
  Gantt._loadData f = Ok g -> p ∈ Gantt.packages g ->
  exists item, Package.__init__ item = Ok p.
Proof.
  intros Hg Hp.
  destruct (loadData_Ok f g Hg) as (d & items & _ & _ & _ & Hps & _).
  apply list_elem_of_lookup in Hp. destruct Hp as [k Hk].
  destruct (Forall2_lookup_r _ _ _ _ _ Hps Hk) as (item & _ & Hitem).
  eauto.
Qed.


Lemma package_duration item p :
  Package.__init__ item = Ok p ->
  duration p = calendar_days (Package.start p) (Package.end_ p) /\
  0 <= duration p.
Proof.
  intros H. apply Package_init_Ok in H.
  destruct H as (_ & (v1 & _ & H1) & (v2 & _ & H2) & Hgt & _).
  apply dt_gt_false_le in Hgt.
  apply parse_date_month_start in H1, H2.
  apply days_between_calendar; tauto.
Qed.





(** C10: when two packages carry the same label, [index] sends both to
    the first position, the start and end slots of the later position stay
    [None], the durations cannot be computed ([TypeError]) and no chart
    object is constructed. *)
Theorem duplicate_label_fails f g i j :
  Gantt._loadData f = Ok g ->
  duplicate_at (Gantt.labels g) i j ->
  (forall b, Gantt.labels g !! j = Some b ->
     exists k, index (Gantt.labels g) b = Some k /\ (k <= i < j)%nat) /\
  (exists st en,
     for_fold (Gantt.place (Gantt.labels g)) (Gantt.packages g)
       (replicate (length (Gantt.labels g)) None,
        replicate (length (Gantt.labels g)) None) = Ok (st, en) /\
     st !! j = Some None /\ en !! j = Some None) /\
  Gantt._procData g = Raise TypeError /\
  Gantt.__init__ f = Raise TypeError.
Proof.
  intros Hg Hdup.
  destruct (loadData_Ok f g Hg) as (d & items & _ & _ & _ & _ & Hl & Hh & _).
  destruct (procData_duplicate g i j Hl Hh Hdup) as [Hslots Hproc].
  split; [|split; [exact Hslots|split; [exact Hproc|]]].
  - intros b Hb. destruct Hdup as (Hij & a & b' & Ha & Hb' & Hab).
    assert (b' = b) as -> by congruence.
    destruct (index_found _ b i a Ha Hab) as (k & Hk & Hle).
    exists k. split; [exact Hk | lia].
  - unfold Gantt.__init__. rewrite Hg. exact Hproc.
Qed.

Lemma duplicate_label_fails_witness :
  Gantt.__init__ twice_A = Raise TypeError.
Proof.
  refine (proj2 (proj2 (proj2
            (duplicate_label_fails twice_A _ 0%nat 1%nat eq_refl _)))).
  split; [lia|]. exists (JStr "A"), (JStr "A"). repeat split.
Defined.

(** * The milestones map *)

(** Every package has an entry in the milestones map, whether or not it
    declares a milestone; the map is empty only without packages. *)
Lemma milestones_map_has_every_label f g :
  Gantt._loadData f = Ok g ->
  (forall p, p ∈ Gantt.packages g ->
     dict_has (Gantt.milestones g) (Package.label p)) /\
  (Gantt.packages g <> [] -> Gantt.milestones g <> []).
Proof.
  intros Hg.
  destruct (loadData_Ok f g Hg) as (d & items & _ & _ & _ & _ & _ & _ & H).
  exact H.
Qed.

(** C1, at the scenario of the specification: the only package declares
    no milestone, and yet the milestones map holds an entry for its
    label, with an empty list; the map is not empty. *)
Theorem scenario_milestones_entry :
  exists g,
    Gantt._loadData scenario = Ok g /\
    map Package.milestones (Gantt.packages g) = [[]] /\
    Gantt.milestones g = [(JStr "A", [])] /\
    dict_get (Gantt.milestones g) (JStr "A") = Some [].
Proof. eexists. repeat split. Qed.

(** * Loading a bad data file *)








(** * Rendering *)

(** The steps of [render] only add calls. *)
Lemma format_extends g calls calls' :
  Gantt.format g calls = Ok calls' -> exists more, calls' = calls ++ more.
Proof.
  unfold Gantt.format. intros H.
  apply bind_Ok in H. destruct H as (lo & _ & H).
  apply bind_Ok in H. destruct H as (hi & _ & H).
  destruct (truthy (Gantt.xlabel (Gantt.loaded g)));
    destruct (truthy (Gantt.xticks (Gantt.loaded g)));
    try (apply bind_Ok in H; destruct H as (ticks & _ & H);
         apply bind_Ok in H; destruct H as (pos & _ & H));
    injection H as <-; rewrite <- ?app_assoc; eauto.
Qed.

Lemma add_milestones_extends g calls calls' :
  Gantt.add_milestones g calls = Ok calls' ->
  exists more, calls' = calls ++ more.
Proof.
  unfold Gantt.add_milestones. destruct (Gantt.milestones (Gantt.loaded g)).
  - intros [= <-]. exists []. rewrite app_nil_r. reflexivity.
  - intros H. apply bind_Ok in H. destruct H as (xy & _ & [= <-]). eauto.
Qed.

(** The loop of [add_legend]: the calls it adds are [set_label] calls,
    one for each package with a legend that counts as true, under the index
    of that package's label. *)
Lemma legend_loop g ps : forall n calls n' calls',
  for_fold (Gantt.legend_step g) ps (n, calls) = Ok (n', calls') ->
  exists more,
    calls' = calls ++ more /\
    (forall c, c ∈ more ->
       exists p idx, p ∈ ps /\ truthy (Package.legend p) = true /\
         index (Gantt.labels (Gantt.loaded g)) (Package.label p) = Some idx /\
         c = set_label idx (Package.legend p)) /\
    (Forall (fun p => truthy (Package.legend p) = false) ps ->
     n' = n /\ more = []).
Proof.
  induction ps as [|p ps IH]; intros n calls n' calls'; cbn [for_fold].
  - intros [= <- <-]. exists []. rewrite app_nil_r. split; [reflexivity|].
    split; [|auto]. intros c Hc. inversion Hc.
  - intros H. apply bind_Ok in H. destruct H as ([n1 calls1] & Hstep & H).
    apply IH in H. destruct H as (more & -> & Hmore & Hnone).
    unfold Gantt.legend_step in Hstep. cbn [fst snd] in Hstep.
    destruct (truthy (Package.legend p)) eqn:Htr.
    + bind_inv Hstep idx Hidx.
      destruct (idx <? length (Gantt.yPos g))%nat; [|discriminate].
      injection Hstep as <- <-.
      unfold list_index in Hidx.
      destruct (index (Gantt.labels (Gantt.loaded g)) (Package.label p))
        as [k|] eqn:Hk; [|discriminate]. injection Hidx as ->.
      exists (set_label idx (Package.legend p) :: more).
      split; [rewrite <- app_assoc; reflexivity|]. split.
      * intros c Hc. apply elem_of_cons in Hc. destruct Hc as [-> | Hc].
        -- exists p, idx. split; [left|]. auto.
        -- destruct (Hmore c Hc) as (q & i & Hq & Hrest).
           exists q, i. split; [right; exact Hq | exact Hrest].
      * intros Hall. inversion Hall; subst. congruence.
    + injection Hstep as <- <-. exists more. split; [reflexivity|]. split.
      * intros c Hc. destruct (Hmore c Hc) as (q & i & Hq & Hrest).
        exists q, i. split; [right; exact Hq | exact Hrest].
      * intros Hall. inversion Hall; subst. auto.
Qed.

Lemma legend_step_null g st p :
  Package.legend p = JNull -> Gantt.legend_step g st p = Ok st.
Proof. intros Hp. unfold Gantt.legend_step. rewrite Hp. reflexivity. Qed.

Lemma legend_loop_none g ps st :
  Forall (fun p => Package.legend p = JNull) ps ->
  for_fold (Gantt.legend_step g) ps st = Ok st.
Proof.
  induction 1 as [|p ps Hp _ IH]; cbn [for_fold]; [reflexivity|].
  rewrite legend_step_null by exact Hp. exact IH.
Qed.

Lemma add_legend_extends g calls calls' :
  Gantt.add_legend g calls = Ok calls' -> exists more, calls' = calls ++ more.
Proof.
  unfold Gantt.add_legend. intros H.
  apply bind_Ok in H. destruct H as ([n c] & Hloop & H).
  apply legend_loop in Hloop. destruct Hloop as (more & -> & _).
  cbn [fst snd] in H. destruct (0 <? n)%nat; injection H as <-;
    rewrite <- ?app_assoc; eauto.
Qed.

(** C8: a package built from a record without [color] has the default
    colour ["#32AEE0"], and that is the colour passed for its bar; a package
    whose [legend] is absent or null has the legend [None], its turn of
    the loop of [add_legend] changes nothing, and every [set_label] call
    that [add_legend] adds comes from a package whose legend counts as
    true. *)
Theorem default_color_and_no_legend :
  (forall pkg p,
     lacks_key pkg "color" -> Package.__init__ pkg = Ok p ->
     Package.color p = JStr "#32AEE0") /\
  (forall plt g calls,
     Gantt.render plt g = Ok calls ->
     barh (Gantt.yPos g) (Gantt.durations g) (Gantt.start g)
          (map Package.color (Gantt.packages (Gantt.loaded g))) ∈ calls) /\
  (forall pkg p,
     lacks_key pkg "legend" \/ getitem pkg "legend" = Ok JNull ->
     Package.__init__ pkg = Ok p ->
     Package.legend p = JNull) /\
  (forall g st p,
     Package.legend p = JNull -> Gantt.legend_step g st p = Ok st) /\
  (forall g calls calls' c,
     Gantt.add_legend g calls = Ok calls' -> c ∈ calls' ->
     c ∈ calls \/ c = ax_legend \/
     exists p idx,
       p ∈ Gantt.packages (Gantt.loaded g) /\
       truthy (Package.legend p) = true /\
       index (Gantt.labels (Gantt.loaded g)) (Package.label p) = Some idx /\
       c = set_label idx (Package.legend p)) /\
  (forall g calls,
     Forall (fun p => Package.legend p = JNull)
            (Gantt.packages (Gantt.loaded g)) ->
     Gantt.add_legend g calls = Ok calls).
Proof.
  split; [|split; [|split; [|split; [|split]]]].
  - intros pkg p (kvs & -> & Hk) H. apply Package_init_Ok in H.
    destruct H as (_ & _ & _ & _ & Hc & _). cbn in Hc. rewrite Hk in Hc.
    cbn in Hc. injection Hc as <-. reflexivity.
  - intros plt g calls H. unfold Gantt.render in H.
    destruct (reads_colors plt _); [|discriminate].
    bind_inv H c1 H1.
    apply bind_Ok in H. destruct H as (c2 & H2 & H3).
    apply format_extends in H1. destruct H1 as (m1 & ->).
    apply add_milestones_extends in H2. destruct H2 as (m2 & ->).
    apply add_legend_extends in H3. destruct H3 as (m3 & ->).
    rewrite !elem_of_app. left. left. left. right.
    apply list_elem_of_singleton. reflexivity.
  - intros pkg p Hl H. apply Package_init_Ok in H.
    destruct H as (_ & _ & _ & _ & _ & Hlg).
    destruct Hl as [(kvs & -> & Hk) | Hk].
    + cbn in Hlg. rewrite Hk in Hlg. cbn in Hlg. congruence.
    + rewrite Hk in Hlg. cbn in Hlg. congruence.
  - intros g st p Hp. apply legend_step_null. exact Hp.
  - intros g calls calls' c H Hc. unfold Gantt.add_legend in H.
    apply bind_Ok in H. destruct H as ([n c1] & Hloop & H).
    apply legend_loop in Hloop. destruct Hloop as (more & -> & Hmore & _).
    cbn [fst snd] in H.
    assert (c ∈ (calls ++ more) ++ [ax_legend]) as Hc'.
    { destruct (0 <? n)%nat; injection H as <-; [exact Hc|].
      apply elem_of_app. left. exact Hc. }
    rewrite !elem_of_app in Hc'. destruct Hc' as [[Hc' | Hc'] | Hc'].
    + left. exact Hc'.
    + right. right. destruct (Hmore c Hc') as (p & idx & Hrest).
      exists p, idx. exact Hrest.
    + right. left. apply list_elem_of_singleton in Hc'. exact Hc'.
  - intros g calls Hall. unfold Gantt.add_legend.
    rewrite legend_loop_none by exact Hall. reflexivity.
Qed.

Lemma default_color_and_no_legend_witness :
  Package.color
    (Package.mk (JStr "A") (mkdate 2021 1 1) (mkdate 2021 3 1) []
       (JStr "#32AEE0") JNull) = JStr "#32AEE0".
Proof.
  refine (proj1 default_color_and_no_legend
            (JObj [("label", JStr "A"); ("start", JStr "01-2021");
                   ("end", JStr "03-2021")]%string) _ _ eq_refl).
  eexists. split; reflexivity.
Defined.

Lemma optional_key_Ok kvs k dflt :
  exists v, try_except is_KeyError (getitem (JObj kvs) k) (Ok dflt) = Ok v.
Proof. cbn. destruct (assoc k kvs); cbn; eauto. Qed.

(** A document with a title and an empty [packages] array loads, and
    Process gives it empty coordinate lists. *)
Lemma empty_chart_loads d ttl :
  getitem d "title" = Ok ttl -> getitem d "packages" = Ok (JArr []) ->
  exists t, Gantt.__init__ (Document d) = Ok t /\
            Gantt.packages (Gantt.loaded t) = [] /\
            Gantt.start t = [] /\ Gantt.end_ t = [].
Proof.
  intros Ht Hp. destruct d as [| | | | |kvs]; try discriminate.
  destruct (optional_key_Ok kvs "xlabel" (JStr "")) as [xl Hxl].
  destruct (optional_key_Ok kvs "xticks" (JArr [])) as [xt Hxt].
  unfold Gantt.__init__, Gantt._loadData. cbn [json_load mbind result_bind].
  rewrite Ht. cbn [mbind result_bind]. rewrite Hp.
  cbn [mbind result_bind iter for_each for_fold]. rewrite Hxl, Hxt.
  cbn. eauto.
Qed.

Lemma format_empty t calls :
  Gantt.start t = [] -> Gantt.format t calls = Raise (ValueError EmptySequence).
Proof. intros H. unfold Gantt.format. rewrite H. reflexivity. Qed.

Lemma render_empty plt t :
  Gantt.packages (Gantt.loaded t) = [] -> Gantt.start t = [] ->
  Gantt.render plt t = Raise (ValueError EmptySequence).
Proof.
  intros Hps H. unfold Gantt.render. rewrite Hps. cbn [map].
  rewrite reads_no_colors, format_empty by exact H. reflexivity.
Qed.

(** C9: a document whose [packages] array is empty still loads and is
    processed, but the axis formatting of Render takes the minimum of an
    empty list of start ordinals and raises; so a chart that renders has
    at least one package, and with at least one package the minimum start
    and the maximum end exist. *)
Theorem empty_chart_cannot_render :
  (forall d ttl,
     getitem d "title" = Ok ttl -> getitem d "packages" = Ok (JArr []) ->
     exists t,
       Gantt.__init__ (Document d) = Ok t /\
       Gantt.start t = [] /\ Gantt.end_ t = [] /\
       py_min (Gantt.start t) = Raise (ValueError EmptySequence) /\
       py_max (Gantt.end_ t) = Raise (ValueError EmptySequence) /\
       (forall calls,
          Gantt.format t calls = Raise (ValueError EmptySequence)) /\
       (forall plt,
          Gantt.render plt t = Raise (ValueError EmptySequence))) /\
  (forall plt f t calls,
     Gantt.__init__ f = Ok t -> Gantt.render plt t = Ok calls ->
     Gantt.packages (Gantt.loaded t) <> []) /\
  (forall f t,
     Gantt.__init__ f = Ok t -> Gantt.packages (Gantt.loaded t) <> [] ->
     exists lo hi,
       py_min (Gantt.start t) = Ok lo /\ py_max (Gantt.end_ t) = Ok hi).
Proof.
  split; [|split].
  - intros d ttl Ht Hp.
    destruct (empty_chart_loads d ttl Ht Hp) as (t & Hinit & Hps & Hs & He).
    exists t. split; [exact Hinit|]. split; [exact Hs|]. split; [exact He|].
    rewrite Hs, He. split; [reflexivity|]. split; [reflexivity|].
    split; [intros calls; apply format_empty; exact Hs|].
    intros plt. apply render_empty; assumption.
  - intros plt f t calls Hinit Hr Hnil.
    destruct (Gantt_init_Ok f t Hinit) as (_ & _ & Ht).
    rewrite render_empty in Hr; [discriminate | exact Hnil |].
    rewrite Ht. cbn [Gantt.start]. rewrite Hnil. reflexivity.
  - intros f t Hinit Hne.
    destruct (Gantt_init_Ok f t Hinit) as (_ & _ & Ht).
    rewrite Ht. cbn [Gantt.start Gantt.end_ Gantt.loaded].
    destruct (Gantt.packages (Gantt.loaded t)) as [|p ps]; [congruence|].
    cbn. eauto.
Qed.

Lemma empty_chart_cannot_render_witness :
  exists t,
    Gantt.__init__
      (Document (JObj [("title", JStr "T"); ("packages", JArr [])]%string))
    = Ok t /\
    Gantt.render default_colors_only t = Raise (ValueError EmptySequence).
Proof.
  destruct (proj1 empty_chart_cannot_render
              (JObj [("title", JStr "T"); ("packages", JArr [])]%string)
              (JStr "T") eq_refl eq_refl)
    as (t & Hinit & _ & _ & _ & _ & _ & Hr).
  exists t. split; [exact Hinit | exact (Hr default_colors_only)].
Defined.

(** * Further properties of [Package] *)

(** X1: the required keys are read in the order [label], [start], [end]:
    a record that is not a JSON object raises [TypeError]; an object
    without [label] raises [KeyError('label')]; with a label but without
    [start], [KeyError('start')]; with a label and a start that parses but
    without [end], [KeyError('end')]. *)
Theorem package_missing_key :
  (forall pkg, (forall kvs, pkg <> JObj kvs) ->
     Package.__init__ pkg = Raise TypeError) /\
  (forall pkg, lacks_key pkg "label" ->
     Package.__init__ pkg = Raise (KeyError "label")) /\
  (forall pkg l, getitem pkg "label" = Ok l -> lacks_key pkg "start" ->
     Package.__init__ pkg = Raise (KeyError "start")) /\
  (forall pkg l v d,
     getitem pkg "label" = Ok l ->
     getitem pkg "start" = Ok v -> Package._parse_date v = Ok d ->
     lacks_key pkg "end" ->
     Package.__init__ pkg = Raise (KeyError "end")).
Proof.
  split; [|split; [|split]].
  - intros pkg Hno. unfold Package.__init__.
    destruct pkg; try reflexivity. contradiction (Hno fields). reflexivity.
  - intros pkg (kvs & -> & Hk). unfold Package.__init__. cbn.
    rewrite Hk. reflexivity.
  - intros pkg l Hl (kvs & -> & Hk). unfold Package.__init__.
    rewrite Hl. cbn. rewrite Hk. reflexivity.
  - intros pkg l v d Hl Hs Hd (kvs & -> & Hk). unfold Package.__init__.
    rewrite Hl, Hs. cbn -[Package._parse_date]. rewrite Hd, Hk. reflexivity.
Qed.

Lemma package_missing_key_witness :
  Package.__init__ (JObj [("start", JStr "01-2021")]%string)
  = Raise (KeyError "label").
Proof.
  apply (proj1 (proj2 package_missing_key)).
  eexists. split; reflexivity.
Defined.

Lemma get_default_try pkg l k dflt :
  getitem pkg "label" = Ok l ->
  try_except is_KeyError (getitem pkg k) (Ok dflt)
  = Ok (get_default pkg k dflt).
Proof.
  unfold get_default. destruct pkg; try discriminate. intros _. cbn.
  destruct (assoc k fields); reflexivity.
Qed.

(** X2: a record with a label, a start and an end that parse and are in
    order, and with milestones that are absent or an iterable of date
    strings that all parse, is constructed; the package holds the label as
    given, the parsed dates, the parsed milestones in their order, the
    colour and the legend as given or else ["#32AEE0"] and [None].
    Nothing relates the milestones to the start or the end. *)
Theorem package_constructed pkg l v1 s v2 e ms :
  getitem pkg "label" = Ok l ->
  getitem pkg "start" = Ok v1 -> Package._parse_date v1 = Ok s ->
  getitem pkg "end" = Ok v2 -> Package._parse_date v2 = Ok e ->
  dt_le s e ->
  (lacks_key pkg "milestones" /\ ms = [] \/
   exists v items,
     getitem pkg "milestones" = Ok v /\ iter v = Ok items /\
     Forall2 (fun item d => Package._parse_date item = Ok d) items ms) ->
  Package.__init__ pkg =
  Ok (Package.mk l s e ms
        (get_default pkg "color" (JStr "#32AEE0"))
        (get_default pkg "legend" JNull)).
Proof.
  intros Hl H1 Hs H2 He Hle Hms. unfold Package.__init__.
  rewrite Hl, H1, H2. cbn -[Package._parse_date]. rewrite Hs, He.
  cbn -[Package._parse_date].
  apply dt_gt_false_le in Hle. rewrite Hle.
  rewrite (get_default_try pkg l "color" _ Hl),
          (get_default_try pkg l "legend" _ Hl).
  destruct Hms as [[(kvs & -> & Hk) ->] | (v & items & Hv & Hit & Hall)].
  - cbn. rewrite Hk. reflexivity.
  - rewrite Hv. cbn -[Package._parse_date]. rewrite Hit.
    cbn -[Package._parse_date].
    apply for_each_Ok in Hall. rewrite Hall. reflexivity.
Qed.

Lemma package_constructed_witness :
  Package.__init__
    (JObj [("label", JStr "A"); ("start", JStr "01-2021");
           ("end", JStr "03-2021"); ("legend", JStr "first");
           ("milestones", JArr [JStr "12-2021"])]%string)
  = Ok (Package.mk (JStr "A") (mkdate 2021 1 1) (mkdate 2021 3 1)
          [mkdate 2021 12 1] (JStr "#32AEE0") (JStr "first")).
Proof.
  refine (package_constructed
            (JObj [("label", JStr "A"); ("start", JStr "01-2021");
                   ("end", JStr "03-2021"); ("legend", JStr "first");
                   ("milestones", JArr [JStr "12-2021"])]%string)
            (JStr "A") (JStr "01-2021") (mkdate 2021 1 1)
            (JStr "03-2021") (mkdate 2021 3 1) [mkdate 2021 12 1]
            eq_refl eq_refl eq_refl eq_refl eq_refl _ _).
  - discriminate.
  - right. exists (JArr [JStr "12-2021"]), [JStr "12-2021"].
    repeat split. repeat constructor.
Defined.

(** X3: [_parse_date] accepts exactly the strings made of a month spelled
    [1]..[9], [01]..[09] or [10]..[12], a hyphen and four digits that are
    not [0000]; the date it returns has that year and month, read in base
    ten, and day 1.  A value that is not a string raises [TypeError]. *)
Theorem parse_date_accepts_exactly :
  (forall v d,
     Package._parse_date v = Ok d <->
     exists m y,
       v = JStr (m +:+ "-" +:+ y) /\ In m month_texts /\
       year_text y = true /\ d = mkdate (decimal y) (decimal m) 1) /\
  (forall v, (forall s, v <> JStr s) ->
     Package._parse_date v = Raise TypeError).
Proof.
  split.
  - intros v d. split.
    + intros H. apply parse_date_str in H. destruct H as (s & -> & H).
      apply strptime_mY_Some in H. destruct H as (m & y & -> & Hm & Hy & ->).
      exists m, y. auto.
    + intros (m & y & -> & Hm & Hy & ->). apply parse_date_Ok.
      apply strptime_mY_Some. exists m, y. auto.
  - intros v Hno. destruct v; try reflexivity. contradiction (Hno s).
    reflexivity.
Qed.

Lemma parse_date_accepts_exactly_witness :
  Package._parse_date (JStr "7-1999") = Ok (mkdate 1999 7 1).
Proof.
  apply (proj1 parse_date_accepts_exactly).
  exists "7"%string, "1999"%string. repeat split. simpl. tauto.
Defined.

(** * Dates on the ordinal scale *)

Lemma first_of_month_increasing k : forall i,
  toordinal (first_of_month i) < toordinal (first_of_month (i + Z.of_nat (S k))).
Proof.
  intros i. pose proof (ordinal_months (S k) i) as H.
  cbn [days_of_months] in H.
  pose proof (month_length_pos (i / 12) (i mod 12 + 1)).
  pose proof (days_of_months_nonneg k (i + 1)). lia.
Qed.

Lemma first_of_month_lt i j :
  i < j -> toordinal (first_of_month i) < toordinal (first_of_month j).
Proof.
  intros Hij. replace j with (i + Z.of_nat (S (Z.to_nat (j - i - 1)))) by lia.
  apply first_of_month_increasing.
Qed.

Lemma dt_compare_month_number a b :
  month_start a -> month_start b ->
  dt_compare a b = (month_number a ?= month_number b).
Proof.
  intros [Ha Hda] [Hb Hdb]. unfold dt_compare, month_number.
  rewrite Hda, Hdb.
  destruct (year a ?= year b) eqn:Hy.
  - apply Z.compare_eq in Hy.
    destruct (month a ?= month b) eqn:Hm.
    + apply Z.compare_eq in Hm. symmetry. apply Z.compare_eq_iff. lia.
    + rewrite Z.compare_lt_iff in Hm. symmetry. apply Z.compare_lt_iff. lia.
    + rewrite Z.compare_gt_iff in Hm. symmetry. apply Z.compare_gt_iff. lia.
  - rewrite Z.compare_lt_iff in Hy. symmetry. apply Z.compare_lt_iff. lia.
  - rewrite Z.compare_gt_iff in Hy. symmetry. apply Z.compare_gt_iff. lia.
Qed.

Lemma dt_compare_ordinal a b :
  month_start a -> month_start b ->
  dt_compare a b = (toordinal a ?= toordinal b).
Proof.
  intros Ha Hb. rewrite (dt_compare_month_number a b Ha Hb).
  rewrite <- (first_of_month_number a Ha) at 2.
  rewrite <- (first_of_month_number b Hb) at 2.
  destruct (Z.compare_spec (month_number a) (month_number b)) as [E|L|G].
  - rewrite E. symmetry. apply Z.compare_refl.
  - symmetry. apply Z.compare_lt_iff. apply first_of_month_lt. exact L.
  - symmetry. apply Z.compare_gt_iff. apply first_of_month_lt. exact G.
Qed.

(** X4: on parsed dates the day ordinal keeps the order of the calendar:
    comparing two dates and comparing their ordinals give the same
    answer, so equal ordinals mean the same month and an earlier date has
    a smaller ordinal. *)
Theorem ordinal_keeps_order v w a b :
  Package._parse_date v = Ok a -> Package._parse_date w = Ok b ->
  dt_compare a b = (toordinal a ?= toordinal b) /\
  (toordinal a = toordinal b -> a = b) /\
  (dt_gt a b = true <-> toordinal b < toordinal a).
Proof.
  intros Ha Hb.
  apply parse_date_month_start in Ha, Hb.
  destruct Ha as [Ha _], Hb as [Hb _].
  pose proof (dt_compare_ordinal a b Ha Hb) as Hc.
  split; [exact Hc|]. split.
  - intros E. rewrite E, Z.compare_refl in Hc.
    rewrite (dt_compare_month_number a b Ha Hb) in Hc.
    apply Z.compare_eq in Hc.
    rewrite <- (first_of_month_number a Ha), <- (first_of_month_number b Hb).
    rewrite Hc. reflexivity.
  - unfold dt_gt. rewrite Hc.
    destruct (Z.compare_spec (toordinal a) (toordinal b)); split;
      intros; try discriminate; try reflexivity; lia.
Qed.

Lemma ordinal_keeps_order_witness :
  dt_compare (mkdate 2021 1 1) (mkdate 2021 3 1) = (737791 ?= 737850).
Proof.
  exact (proj1 (ordinal_keeps_order (JStr "01-2021") (JStr "03-2021")
                  _ _ eq_refl eq_refl)).
Defined.

(** * Further properties of [Gantt._loadData] *)

Lemma labels_of_items items ps :
  Forall2 (fun item p => Package.__init__ item = Ok p) items ps ->
  for_each (fun pkg => getitem pkg "label") items = Ok (map Package.label ps).
Proof.
  induction 1 as [|item p items ps Hp _ IH]; cbn; [reflexivity|].
  apply Package_init_Ok in Hp. destruct Hp as (Hl & _).
  rewrite Hl. cbn. rewrite IH. reflexivity.
Qed.

(** The loop that fills the milestones map: it runs to its end when every
    label can be hashed, and raises [TypeError] otherwise. *)
Lemma milestones_loop_hashable ps : forall d0,
  Forall (fun p => hashable (Package.label p) = true) ps ->
  for_fold
    (fun ms pkg =>
       try_except is_AttributeError
         (dict_setitem ms (Package.label pkg) (Package.milestones pkg))
         (Ok ms)) ps d0
  = Ok (fold_left
          (fun d p => dict_set d (Package.label p) (Package.milestones p))
          ps d0).
Proof.
  induction ps as [|p ps IH]; intros d0 Hall; cbn; [reflexivity|].
  inversion Hall as [|? ? Hp Hps]; subst.
  unfold dict_setitem. rewrite Hp. cbn. apply IH. exact Hps.
Qed.

Lemma milestones_loop_unhashable ps : forall d0,
  Exists (fun p => hashable (Package.label p) = false) ps ->
  for_fold
    (fun ms pkg =>
       try_except is_AttributeError
         (dict_setitem ms (Package.label pkg) (Package.milestones pkg))
         (Ok ms)) ps d0
  = Raise TypeError.
Proof.
  induction ps as [|p ps IH]; intros d0 Hex; [inversion Hex|]. cbn.
  unfold dict_setitem. destruct (hashable (Package.label p)) eqn:Hp; cbn.
  - apply IH. inversion Hex; subst; [congruence | assumption].
  - reflexivity.
Qed.

Lemma get_default_top d ttl k dflt :
  getitem d "title" = Ok ttl ->
  try_except is_KeyError (getitem d k) (Ok dflt) = Ok (get_default d k dflt).
Proof.
  unfold get_default. destruct d; try discriminate. intros _. cbn.
  destruct (assoc k fields); reflexivity.
Qed.

(** The run of [_loadData] on a document whose packages all construct. *)
Lemma loadData_run d ttl items ps :
  getitem d "title" = Ok ttl ->
  getitem d "packages" ≫= iter = Ok items ->
  Forall2 (fun item p => Package.__init__ item = Ok p) items ps ->
  Gantt._loadData (Document d) =
  for_fold
    (fun ms pkg =>
       try_except is_AttributeError
         (dict_setitem ms (Package.label pkg) (Package.milestones pkg))
         (Ok ms)) ps []
  ≫= fun ms =>
       Ok (Gantt.mkdata ttl ps (map Package.label ps) ms
             (get_default d "xlabel" (JStr ""))
             (get_default d "xticks" (JArr []))).
Proof.
  intros Ht Hitems Hps. unfold Gantt._loadData.
  cbn [json_load mbind result_bind]. rewrite Ht. cbn [mbind result_bind].
  pose proof Hitems as Hitems'. bind_inv Hitems' v Hv. rewrite Hv.
  cbn [mbind result_bind]. rewrite Hitems'. cbn [mbind result_bind].
  rewrite (proj2 (for_each_Ok _ _ _) Hps). cbn [mbind result_bind].
  rewrite (labels_of_items items ps Hps). cbn [mbind result_bind].
  destruct (for_fold _ ps []) as [ms|e]; cbn [mbind result_bind];
    [|reflexivity].
  rewrite (get_default_top d ttl "xlabel" _ Ht),
          (get_default_top d ttl "xticks" _ Ht).
  reflexivity.
Qed.

(** X5: the first record of [packages] that cannot be constructed ends
    the load, and with it the construction of the chart, with the
    exception of that record; the records after it are not looked at. *)
Theorem load_first_package_error d ttl pre item post ps e :
  getitem d "title" = Ok ttl ->
  getitem d "packages" ≫= iter = Ok (pre ++ item :: post) ->
  for_each Package.__init__ pre = Ok ps ->
  Package.__init__ item = Raise e ->
  Gantt._loadData (Document d) = Raise e /\
  Gantt.__init__ (Document d) = Raise e.
Proof.
  intros Ht Hitems Hpre Hitem.
  assert (Gantt._loadData (Document d) = Raise e) as Hload.
  { unfold Gantt._loadData. cbn [json_load mbind result_bind].
    rewrite Ht. cbn [mbind result_bind].
    bind_inv Hitems v Hv. rewrite Hv. cbn [mbind result_bind].
    rewrite Hitems. cbn [mbind result_bind].
    rewrite (for_each_first_raise _ pre item post ps e Hpre Hitem).
    reflexivity. }
  split; [exact Hload|]. unfold Gantt.__init__. rewrite Hload. reflexivity.
Qed.

Lemma load_first_package_error_witness :
  Gantt.__init__
    (Document
       (JObj [("title", JStr "T");
              ("packages",
               JArr [JObj [("label", JStr "A"); ("start", JStr "01-2021");
                           ("end", JStr "03-2021")];
                     JObj [("label", JStr "B"); ("start", JStr "2021");
                           ("end", JStr "03-2021")];
                     JNull])]%string))
  = Raise (ValueError (Message "Date format for 2021 should be MM-YYYY")).
Proof.
  refine (proj2 (load_first_package_error
            (JObj [("title", JStr "T");
                   ("packages",
                    JArr [JObj [("label", JStr "A");
                                ("start", JStr "01-2021");
                                ("end", JStr "03-2021")];
                          JObj [("label", JStr "B"); ("start", JStr "2021");
                                ("end", JStr "03-2021")];
                          JNull])]%string)
            (JStr "T")
            [JObj [("label", JStr "A"); ("start", JStr "01-2021");
                   ("end", JStr "03-2021")]%string]
            (JObj [("label", JStr "B"); ("start", JStr "2021");
                   ("end", JStr "03-2021")]%string)
            [JNull] _ _ eq_refl eq_refl eq_refl eq_refl)).
Defined.

(** X6: a label that is a list or an object cannot be a key of the
    milestones map: when every record constructs and one of the labels is
    not hashable, the load raises [TypeError]. *)
Theorem unhashable_label_fails d ttl items ps :
  getitem d "title" = Ok ttl ->
  getitem d "packages" ≫= iter = Ok items ->
  Forall2 (fun item p => Package.__init__ item = Ok p) items ps ->
  Exists (fun p => hashable (Package.label p) = false) ps ->
  Gantt._loadData (Document d) = Raise TypeError /\
  Gantt.__init__ (Document d) = Raise TypeError.
Proof.
  intros Ht Hitems Hps Hex.
  assert (Gantt._loadData (Document d) = Raise TypeError) as Hload.
  { rewrite (loadData_run d ttl items ps Ht Hitems Hps).
    rewrite milestones_loop_unhashable by exact Hex. reflexivity. }
  split; [exact Hload|]. unfold Gantt.__init__. rewrite Hload. reflexivity.
Qed.

Lemma unhashable_label_fails_witness :
  Gantt.__init__
    (Document
       (JObj [("title", JStr "T");
              ("packages",
               JArr [JObj [("label", JArr [JStr "A"]);
                           ("start", JStr "01-2021");
                           ("end", JStr "03-2021")]])]%string))
  = Raise TypeError.
Proof.
  refine (proj2 (unhashable_label_fails
            (JObj [("title", JStr "T");
                   ("packages",
                    JArr [JObj [("label", JArr [JStr "A"]);
                                ("start", JStr "01-2021");
                                ("end", JStr "03-2021")]])]%string)
            (JStr "T")
            [JObj [("label", JArr [JStr "A"]); ("start", JStr "01-2021");
                   ("end", JStr "03-2021")]%string]
            [Package.mk (JArr [JStr "A"]) (mkdate 2021 1 1) (mkdate 2021 3 1)
               [] (JStr "#32AEE0") JNull]
            eq_refl eq_refl _ _)).
  - repeat constructor.
  - left. reflexivity.
Defined.

(** [_loadData] succeeds exactly on the documents described here, with
    these attributes. *)
Lemma loadData_spec f g :
  Gantt._loadData f = Ok g <->
  exists d items,
    f = Document d /\
    getitem d "title" = Ok (Gantt.title g) /\
    getitem d "packages" ≫= iter = Ok items /\
    Forall2 (fun item p => Package.__init__ item = Ok p)
            items (Gantt.packages g) /\
    Forall (fun p => hashable (Package.label p) = true) (Gantt.packages g) /\
    Gantt.labels g = map Package.label (Gantt.packages g) /\
    Gantt.milestones g = milestones_of (Gantt.packages g) /\
    Gantt.xlabel g = get_default d "xlabel" (JStr "") /\
    Gantt.xticks g = get_default d "xticks" (JArr []).
Proof.
  split.
  - intros H.
    destruct (loadData_Ok f g H)
      as (d & items & -> & Ht & Hitems & Hps & Hl & Hh & _).
    exists d, items. split; [reflexivity|]. split; [exact Ht|].
    split; [exact Hitems|]. split; [exact Hps|].
    assert (Forall (fun p => hashable (Package.label p) = true)
                   (Gantt.packages g)) as Hh'.
    { rewrite Hl, Forall_fmap in Hh. exact Hh. }
    split; [exact Hh'|]. split; [exact Hl|].
    rewrite (loadData_run d _ items _ Ht Hitems Hps) in H.
    rewrite milestones_loop_hashable in H by exact Hh'.
    cbn in H. injection H as <-. cbn. auto.
  - intros (d & items & -> & Ht & Hitems & Hps & Hh & Hl & Hm & Hxl & Hxt).
    rewrite (loadData_run d _ items _ Ht Hitems Hps).
    rewrite milestones_loop_hashable by exact Hh. cbn.
    destruct g as [t ps ls ms xl xt]. cbn in *. subst. reflexivity.
Qed.


(** X7: what a successful load is.  The document is a JSON object with a
    [title] and an iterable [packages] whose records all construct and
    whose labels can all be hashed; then [title] is the title as given,
    [packages] the constructed records in document order, [labels] their
    labels in the same order, the milestones map the result of assigning
    each package's list under its label in turn, and [xlabel] and
    [xticks] the values given or else [""] and [[]]. *)
Theorem load_attributes f g :
  Gantt._loadData f = Ok g <->
  exists d items,
    f = Document d /\
    getitem d "title" = Ok (Gantt.title g) /\
    getitem d "packages" ≫= iter = Ok items /\
    Forall2 (fun item p => Package.__init__ item = Ok p)
            items (Gantt.packages g) /\
    Forall (fun p => hashable (Package.label p) = true) (Gantt.packages g) /\
    Gantt.labels g = map Package.label (Gantt.packages g) /\
    Gantt.milestones g = milestones_of (Gantt.packages g) /\
    Gantt.xlabel g = get_default d "xlabel" (JStr "") /\
    Gantt.xticks g = get_default d "xticks" (JArr []).
Proof. exact (loadData_spec f g). Qed.

Lemma load_attributes_witness :
  exists g, Gantt._loadData scenario = Ok g /\
            Gantt.xlabel g = JStr "" /\ Gantt.xticks g = JArr [].
Proof.
  eexists. split; [reflexivity|].
  destruct (proj1 (load_attributes scenario _) eq_refl)
    as (d & items & Hd & _ & _ & _ & _ & _ & _ & Hxl & Hxt).
  injection Hd as <-. split; [exact Hxl | exact Hxt].
Defined.

(** * The milestones map, for pairwise different labels *)

Lemma distinct_py_eq_false l i j a b :
  distinct_labels l -> (i < j)%nat ->
  l !! i = Some a -> l !! j = Some b -> py_eq a b = false.
Proof.
  intros Hd Hij Ha Hb. destruct (py_eq a b) eqn:E; [|reflexivity].
  exfalso. apply (Hd i j). split; [exact Hij|]. exists a, b. auto.
Qed.

(** Assigning under a key that equals none of the keys adds an entry at
    the end. *)
Lemma dict_set_fresh {V} (d : list (json * V)) k (v : V) :
  (forall i k0, (map fst d) !! i = Some k0 -> py_eq k0 k = false) ->
  dict_set d k v = d ++ [(k, v)].
Proof.
  induction d as [|[k' v'] d IH]; intros Hfresh; cbn; [reflexivity|].
  rewrite (Hfresh 0%nat k' eq_refl). f_equal. apply IH.
  intros i k0 Hi. apply (Hfresh (S i) k0). exact Hi.
Qed.

Lemma milestones_fold_distinct ps : forall d0,
  distinct_labels (map fst d0 ++ map Package.label ps) ->
  fold_left (fun d p => dict_set d (Package.label p) (Package.milestones p))
            ps d0
  = d0 ++ milestone_entries ps.
Proof.
  induction ps as [|p ps IH]; intros d0 Hd; cbn.
  - rewrite app_nil_r. reflexivity.
  - rewrite dict_set_fresh.
    + rewrite IH.
      * rewrite <- app_assoc. reflexivity.
      * rewrite map_app. cbn. rewrite <- app_assoc. exact Hd.
    + intros i k0 Hi.
      apply (distinct_py_eq_false _ i (length (map fst d0)) k0
               (Package.label p) Hd).
      * apply lookup_lt_Some in Hi. exact Hi.
      * rewrite lookup_app_l by (eapply lookup_lt_Some; eauto). exact Hi.
      * rewrite lookup_app_r by lia. rewrite Nat.sub_diag. reflexivity.
Qed.

(** Looking a key up goes through the position [index] finds among the
    keys. *)
Lemma dict_get_index {V} (d : list (json * V)) k :
  dict_get d k = i ← index (map fst d) k; snd <$> d !! i.
Proof.
  induction d as [|[k' v'] d IH]; cbn; [reflexivity|].
  destruct (py_eq k' k); cbn; [reflexivity|].
  rewrite IH. destruct (index (map fst d) k); reflexivity.
Qed.

Lemma loaded_labels f g :
  Gantt._loadData f = Ok g ->
  Gantt.labels g = map Package.label (Gantt.packages g) /\
  Forall (fun l => hashable l = true) (Gantt.labels g) /\
  Gantt.milestones g = milestones_of (Gantt.packages g).
Proof.
  intros H. apply loadData_spec in H.
  destruct H as (d & items & _ & _ & _ & _ & Hh & Hl & Hm & _).
  split; [exact Hl|]. split; [|exact Hm].
  rewrite Hl, Forall_fmap. exact Hh.
Qed.

Lemma milestones_distinct f g :
  Gantt._loadData f = Ok g -> distinct_labels (Gantt.labels g) ->
  Gantt.milestones g = milestone_entries (Gantt.packages g).
Proof.
  intros H Hd. destruct (loaded_labels f g H) as (Hl & _ & ->).
  unfold milestones_of. rewrite milestones_fold_distinct; [reflexivity|].
  cbn. rewrite <- Hl. exact Hd.
Qed.

(** X8: when no two labels are equal, the milestones map has one entry
    for each package, in document order, made of the package's label and
    its list of milestones (empty when it declares none); looking a
    package's label up gives back that package's list. *)
Theorem milestones_map_entries f g :
  Gantt._loadData f = Ok g -> distinct_labels (Gantt.labels g) ->
  Gantt.milestones g =
    map (fun p => (Package.label p, Package.milestones p)) (Gantt.packages g)
  /\
  forall i p, Gantt.packages g !! i = Some p ->
    dict_get (Gantt.milestones g) (Package.label p)
    = Some (Package.milestones p).
Proof.
  intros H Hd. pose proof (milestones_distinct f g H Hd) as Hm.
  split; [exact Hm|]. intros i p Hp.
  destruct (loaded_labels f g H) as (Hl & Hh & _).
  rewrite Hm, dict_get_index. unfold milestone_entries.
  rewrite map_map. cbn. change (map (fun x => Package.label x)) with
    (map Package.label). rewrite <- Hl.
  rewrite (index_distinct (Gantt.labels g) i (Package.label p) Hh Hd).
  - cbn. rewrite list_lookup_fmap, Hp. reflexivity.
  - rewrite Hl, list_lookup_fmap, Hp. reflexivity.
Qed.

Lemma milestones_map_entries_witness :
  exists g, Gantt._loadData scenario = Ok g /\
            dict_get (Gantt.milestones g) (JStr "A") = Some [].
Proof.
  eexists. split; [reflexivity|].
  refine (proj2 (milestones_map_entries scenario _ eq_refl _) 0%nat
            (Package.mk (JStr "A") (mkdate 2021 1 1) (mkdate 2021 3 1) []
               (JStr "#32AEE0") JNull) eq_refl).
  intros i j (Hij & a & b & Ha & Hb & _).
  apply lookup_lt_Some in Hb. cbn in Hb. lia.
Defined.

(** * Construction and the labels *)

(** X9: once the document is loaded, the chart object is constructed if
    and only if no two labels are equal; then [nPackages] is the number of
    packages and, position by position in document order, [start] and
    [end] hold the ordinals of the packages' dates, [durations] their
    differences and [yPos] the slots from [nPackages] down to 1. *)
Theorem constructed_iff_distinct f g :
  Gantt._loadData f = Ok g ->
  (distinct_labels (Gantt.labels g) <-> exists t, Gantt.__init__ f = Ok t) /\
  (forall t, Gantt.__init__ f = Ok t ->
     t = Gantt.mk g (length (Gantt.packages g))
           (map (fun p => toordinal (Package.start p)) (Gantt.packages g))
           (map (fun p => toordinal (Package.end_ p)) (Gantt.packages g))
           (map (fun p => toordinal (Package.end_ p)
                          - toordinal (Package.start p)) (Gantt.packages g))
           (map (fun i => Z.of_nat (length (Gantt.packages g)) - Z.of_nat i)
                (seq 0 (length (Gantt.packages g))))).
Proof.
  intros H. destruct (loaded_labels f g H) as (Hl & Hh & _).
  assert (forall t, Gantt.__init__ f = Ok t -> Gantt._procData g = Ok t) as Hp.
  { intros t Ht. unfold Gantt.__init__ in Ht. rewrite H in Ht. exact Ht. }
  split; [split|].
  - intros Hd. eexists. unfold Gantt.__init__. rewrite H. cbn.
    apply procData_distinct; assumption.
  - intros [t Ht]. apply (procData_Ok g t Hl Hh (Hp t Ht)).
  - intros t Ht. destruct (procData_Ok g t Hl Hh (Hp t Ht)) as [_ ->].
    rewrite arange_down. reflexivity.
Qed.

Lemma constructed_iff_distinct_witness :
  exists g, Gantt._loadData twice_A = Ok g /\
            ~ distinct_labels (Gantt.labels g).
Proof.
  eexists. split; [reflexivity|].
  intros Hd.
  destruct (proj1 (proj1 (constructed_iff_distinct twice_A _ eq_refl)) Hd)
    as [t Ht].
  vm_compute in Ht. discriminate Ht.
Defined.

(** * The constructed chart *)

(** Everything the rendering steps read from a constructed chart. *)
Lemma chart_fields f t :
  Gantt.__init__ f = Ok t ->
  let ps := Gantt.packages (Gantt.loaded t) in
  Gantt.nPackages t = length ps /\
  Gantt.start t = map (fun p => toordinal (Package.start p)) ps /\
  Gantt.end_ t = map (fun p => toordinal (Package.end_ p)) ps /\
  Gantt.durations t = map duration ps /\
  Gantt.yPos t = map (fun i => Z.of_nat (length ps) - Z.of_nat i)
                     (seq 0 (length ps)) /\
  Gantt.labels (Gantt.loaded t) = map Package.label ps /\
  Forall (fun l => hashable l = true) (Gantt.labels (Gantt.loaded t)) /\
  distinct_labels (Gantt.labels (Gantt.loaded t)) /\
  Gantt.milestones (Gantt.loaded t) = milestone_entries ps /\
  Forall (fun p => 0 <= duration p) ps.
Proof.
  intros H ps. destruct (Gantt_init_Ok f t H) as (Hg & Hd & Ht).
  destruct (loaded_labels f _ Hg) as (Hl & Hh & _).
  pose proof (milestones_distinct f _ Hg Hd) as Hm.
  assert (Forall (fun p => 0 <= duration p) ps) as Hdur.
  { apply Forall_forall. intros p Hp.
    destruct (loaded_packages f _ p Hg Hp) as [item Hitem].
    apply (package_duration item p Hitem). }
  rewrite Ht. cbn [Gantt.nPackages Gantt.start Gantt.end_ Gantt.durations
                   Gantt.yPos Gantt.loaded]. fold ps.
  rewrite arange_down. auto 12.
Qed.

Lemma slot_lookup n i :
  (i < n)%nat ->
  map (fun i => Z.of_nat n - Z.of_nat i) (seq 0 n) !! i
  = Some (Z.of_nat n - Z.of_nat i).
Proof.
  intros Hi. rewrite list_lookup_fmap, lookup_seq_lt by exact Hi. reflexivity.
Qed.

(** * [min] and [max] *)

Lemma fold_min_spec l : forall x,
  fold_left Z.min l x <= x /\
  (forall y, y ∈ l -> fold_left Z.min l x <= y) /\
  (fold_left Z.min l x = x \/ fold_left Z.min l x ∈ l).
Proof.
  induction l as [|a l IH]; intros x; cbn.
  - split; [lia|]. split; [|auto]. intros y Hy. inversion Hy.
  - destruct (IH (Z.min x a)) as (Hle & Hall & Hmem).
    split; [lia|]. split.
    + intros y Hy. apply elem_of_cons in Hy. destruct Hy as [-> | Hy];
        [lia | apply Hall; exact Hy].
    + destruct Hmem as [Hm | Hm].
      * destruct (Z.min_spec x a) as [[_ E] | [_ E]].
        -- left. rewrite Hm. exact E.
        -- right. rewrite Hm, E. left.
      * right. right. exact Hm.
Qed.

Lemma fold_max_spec l : forall x,
  x <= fold_left Z.max l x /\
  (forall y, y ∈ l -> y <= fold_left Z.max l x) /\
  (fold_left Z.max l x = x \/ fold_left Z.max l x ∈ l).
Proof.
  induction l as [|a l IH]; intros x; cbn.
  - split; [lia|]. split; [|auto]. intros y Hy. inversion Hy.
  - destruct (IH (Z.max x a)) as (Hle & Hall & Hmem).
    split; [lia|]. split.
    + intros y Hy. apply elem_of_cons in Hy. destruct Hy as [-> | Hy];
        [lia | apply Hall; exact Hy].
    + destruct Hmem as [Hm | Hm].
      * destruct (Z.max_spec x a) as [[_ E] | [_ E]].
        -- right. rewrite Hm, E. left.
        -- left. rewrite Hm. exact E.
      * right. right. exact Hm.
Qed.

Lemma py_min_spec l :
  l <> [] ->
  exists lo, py_min l = Ok lo /\ lo ∈ l /\ forall y, y ∈ l -> lo <= y.
Proof.
  destruct l as [|x l]; [congruence|]. intros _.
  destruct (fold_min_spec l x) as (Hle & Hall & Hmem).
  exists (fold_left Z.min l x). split; [reflexivity|]. split.
  - destruct Hmem as [-> | Hm]; [left | right; exact Hm].
  - intros y Hy. apply elem_of_cons in Hy. destruct Hy as [-> | Hy];
      [exact Hle | apply Hall; exact Hy].
Qed.

Lemma py_max_spec l :
  l <> [] ->
  exists hi, py_max l = Ok hi /\ hi ∈ l /\ forall y, y ∈ l -> y <= hi.
Proof.
  destruct l as [|x l]; [congruence|]. intros _.
  destruct (fold_max_spec l x) as (Hle & Hall & Hmem).
  exists (fold_left Z.max l x). split; [reflexivity|]. split.
  - destruct Hmem as [-> | Hm]; [left | right; exact Hm].
  - intros y Hy. apply elem_of_cons in Hy. destruct Hy as [-> | Hy];
      [exact Hle | apply Hall; exact Hy].
Qed.

(** * [Gantt.format] *)

(** The run of [format] once the minimum and the maximum exist. *)
Lemma format_run t calls lo hi :
  py_min (Gantt.start t) = Ok lo -> py_max (Gantt.end_ t) = Ok hi ->
  Gantt.format t calls =
  if truthy (Gantt.xticks (Gantt.loaded t))
  then
    ticks ← iter (Gantt.xticks (Gantt.loaded t));
    pos ← for_each (fun tick => d ← strptime tick; Ok (toordinal d)) ticks;
    Ok (calls ++ tick_params :: axis_calls t lo hi
          ++ [set_xticks pos (Gantt.xticks (Gantt.loaded t))])
  else Ok (calls ++ tick_params :: axis_calls t lo hi).
Proof.
  intros Hlo Hhi. unfold Gantt.format, axis_calls. rewrite Hlo, Hhi.
  cbn [mbind result_bind].
  destruct (truthy (Gantt.xlabel (Gantt.loaded t)));
    destruct (truthy (Gantt.xticks (Gantt.loaded t)));
    try (destruct (iter _) as [ticks|e]; cbn [mbind result_bind];
         [|reflexivity];
         destruct (for_each _ ticks) as [pos|e]; cbn [mbind result_bind];
         [|reflexivity]);
    rewrite <- ?app_assoc; reflexivity.
Qed.

Lemma ticks_parse ticks ds :
  Forall2 (fun tick d => strptime tick = Ok d) ticks ds ->
  for_each (fun tick => d ← strptime tick; Ok (toordinal d)) ticks
  = Ok (map toordinal ds).
Proof.
  induction 1 as [|tick d ticks ds Hd _ IH]; cbn; [reflexivity|].
  rewrite Hd. cbn. rewrite IH. reflexivity.
Qed.

(** X10: in a constructed chart with at least one package, the x-range
    that [format] sets runs from the smallest start ordinal to the largest
    end ordinal, both of them ordinals of packages; every bar starts at
    or after the lower limit, has a width that is not negative, and ends,
    at its start plus its width, on its package's end ordinal, at or
    before the upper limit. *)
Theorem bars_within_xlim f t :
  Gantt.__init__ f = Ok t ->
  Gantt.packages (Gantt.loaded t) <> [] ->
  exists lo hi,
    py_min (Gantt.start t) = Ok lo /\ py_max (Gantt.end_ t) = Ok hi /\
    lo ∈ Gantt.start t /\ hi ∈ Gantt.end_ t /\ lo <= hi /\
    (forall i s w,
       Gantt.start t !! i = Some s -> Gantt.durations t !! i = Some w ->
       lo <= s /\ 0 <= w /\ s + w <= hi /\
       Gantt.end_ t !! i = Some (s + w)) /\
    (forall calls calls',
       Gantt.format t calls = Ok calls' -> xlim lo hi ∈ calls').
Proof.
  intros H Hne.
  destruct (chart_fields f t H)
    as (_ & Hs & He & Hd & _ & _ & _ & _ & _ & Hnonneg).
  set (ps := Gantt.packages (Gantt.loaded t)) in *.
  destruct (py_min_spec (Gantt.start t)) as (lo & Hlo & Hlo_in & Hlo_le).
  { rewrite Hs. destruct ps; [congruence | discriminate]. }
  destruct (py_max_spec (Gantt.end_ t)) as (hi & Hhi & Hhi_in & Hhi_ge).
  { rewrite He. destruct ps; [congruence | discriminate]. }
  assert (forall i s w,
            Gantt.start t !! i = Some s -> Gantt.durations t !! i = Some w ->
            lo <= s /\ 0 <= w /\ s + w <= hi /\
            Gantt.end_ t !! i = Some (s + w)) as Hbars.
  { intros i s w Hi Hw.
    assert (Gantt.end_ t !! i = Some (s + w)) as Hend.
    { rewrite Hs, list_lookup_fmap in Hi. rewrite Hd, list_lookup_fmap in Hw.
      rewrite He, list_lookup_fmap.
      destruct (ps !! i) as [p|]; cbn in *; [|discriminate].
      injection Hi as <-. injection Hw as <-. f_equal.
      unfold duration, days_between. lia. }
    split; [apply Hlo_le; eapply list_elem_of_lookup_2; eauto|].
    split.
    - rewrite Hd, list_lookup_fmap in Hw.
      destruct (ps !! i) as [p|] eqn:Hp; cbn in Hw; [|discriminate].
      injection Hw as <-. rewrite Forall_forall in Hnonneg.
      apply Hnonneg. eapply list_elem_of_lookup_2; eauto.
    - split; [|exact Hend].
      apply Hhi_ge. eapply list_elem_of_lookup_2; eauto. }
  exists lo, hi. split; [exact Hlo|]. split; [exact Hhi|].
  split; [exact Hlo_in|]. split; [exact Hhi_in|]. split; [|split].
  - apply list_elem_of_lookup in Hlo_in. destruct Hlo_in as [i Hi].
    assert (exists w, Gantt.durations t !! i = Some w) as [w Hw].
    { apply lookup_lt_is_Some. apply lookup_lt_Some in Hi.
      rewrite Hs in Hi. rewrite Hd. rewrite length_map in *. exact Hi. }
    destruct (Hbars i lo w Hi Hw) as (_ & ? & ? & _). lia.
  - exact Hbars.
  - intros calls calls' Hf.
    rewrite (format_run t calls lo hi Hlo Hhi) in Hf.
    assert (forall more, xlim lo hi ∈
              calls ++ tick_params :: axis_calls t lo hi ++ more) as Hin.
    { intros more. apply elem_of_app. right. right. apply elem_of_app. left.
      unfold axis_calls. apply elem_of_app. left. left. }
    destruct (truthy (Gantt.xticks (Gantt.loaded t))).
    + bind_inv Hf ticks Hticks. bind_inv Hf pos Hpos. injection Hf as <-.
      apply Hin.
    + injection Hf as <-. rewrite <- (app_nil_r (axis_calls t lo hi)).
      apply Hin.
Qed.

Lemma bars_within_xlim_witness :
  exists t lo hi,
    Gantt.__init__ scenario = Ok t /\
    py_min (Gantt.start t) = Ok lo /\ py_max (Gantt.end_ t) = Ok hi /\
    lo <= hi.
Proof.
  eexists.
  destruct (bars_within_xlim scenario _ eq_refl)
    as (lo & hi & Hlo & Hhi & _ & _ & Hle & _).
  { discriminate. }
  exists lo, hi. split; [reflexivity|]. auto.
Defined.

(** X11: custom ticks, once the x-range exists.  Without [xticks] (or
    with an empty value) [format] sets no ticks; with a list of date
    strings that [strptime] takes, it sets the ticks at their ordinals,
    labelled with the strings as given; the first string that [strptime]
    refuses ends [format] with [strptime]'s own [ValueError], not with the
    message of [_parse_date]. *)
Theorem custom_ticks t calls lo hi :
  py_min (Gantt.start t) = Ok lo -> py_max (Gantt.end_ t) = Ok hi ->
  (truthy (Gantt.xticks (Gantt.loaded t)) = false ->
   Gantt.format t calls = Ok (calls ++ tick_params :: axis_calls t lo hi)) /\
  (forall tick ticks ds,
     Gantt.xticks (Gantt.loaded t) = JArr (tick :: ticks) ->
     Forall2 (fun tick d => strptime tick = Ok d) (tick :: ticks) ds ->
     Gantt.format t calls =
     Ok (calls ++ tick_params :: axis_calls t lo hi
           ++ [set_xticks (map toordinal ds) (JArr (tick :: ticks))])) /\
  (forall pre s post ds,
     Gantt.xticks (Gantt.loaded t) = JArr (pre ++ JStr s :: post) ->
     Forall2 (fun tick d => strptime tick = Ok d) pre ds ->
     strptime_mY s = None ->
     Gantt.format t calls = Raise (ValueError (Strptime s))).
Proof.
  intros Hlo Hhi. rewrite (format_run t calls lo hi Hlo Hhi).
  split; [|split].
  - intros ->. reflexivity.
  - intros tick ticks ds Hx Hall. rewrite Hx. cbn [truthy iter mbind result_bind].
    rewrite (ticks_parse _ _ Hall). reflexivity.
  - intros pre s post ds Hx Hpre Hs. rewrite Hx.
    assert (truthy (JArr (pre ++ JStr s :: post)) = true) as ->
      by (destruct pre; reflexivity).
    cbn [iter mbind result_bind].
    rewrite (for_each_first_raise _ pre (JStr s) post (map toordinal ds)
               (ValueError (Strptime s))).
    + reflexivity.
    + apply ticks_parse. exact Hpre.
    + cbn. rewrite Hs. reflexivity.
Qed.

Lemma custom_ticks_witness :
  exists t, Gantt.__init__ ticked = Ok t /\
            Gantt.format t [] = Raise (ValueError (Strptime "June")).
Proof.
  eexists. split; [reflexivity|].
  lazymatch goal with
  | |- Gantt.format ?t _ = _ =>
      refine (proj2 (proj2 (custom_ticks t [] _ _ eq_refl eq_refl))
                [JStr "01-2021"] "June"%string [] [mkdate 2021 1 1]
                eq_refl _ eq_refl)
  end.
  repeat constructor.
Defined.

(** * [Gantt.add_legend] *)

Lemma elem_of_concat {A} (x : A) (ls : list (list A)) :
  x ∈ concat ls <-> exists l, x ∈ l /\ l ∈ ls.
Proof.
  induction ls as [|l ls IH]; cbn.
  - split; [intros H; inversion H | intros (l & _ & H); inversion H].
  - rewrite elem_of_app, IH. split.
    + intros [H | (l' & Hx & Hl')].
      * exists l. split; [exact H | left].
      * exists l'. split; [exact Hx | right; exact Hl'].
    + intros (l' & Hx & Hl'). apply elem_of_cons in Hl'.
      destruct Hl' as [-> | Hl']; [left; exact Hx | right; eauto].
Qed.

Lemma legend_calls_cons first p ps :
  legend_calls first (p :: ps) =
  (if truthy (Package.legend p)
   then [set_label first (Package.legend p)] else [])
  ++ legend_calls (S first) ps.
Proof.
  unfold legend_calls. rewrite imap_cons. cbn [concat].
  rewrite Nat.add_0_r. f_equal. f_equal. apply imap_ext.
  intros i x _. cbn. rewrite Nat.add_succ_r. reflexivity.
Qed.

Lemma with_legend_cons p ps :
  with_legend (p :: ps) =
  if truthy (Package.legend p) then p :: with_legend ps else with_legend ps.
Proof.
  unfold with_legend. rewrite filter_cons.
  destruct (truthy (Package.legend p)); case_decide; congruence.
Qed.

(** A package finds its own position through its label. *)
Lemma own_index t ps1 p ps2 :
  Gantt.packages (Gantt.loaded t) = ps1 ++ p :: ps2 ->
  Gantt.labels (Gantt.loaded t) = map Package.label (Gantt.packages (Gantt.loaded t)) ->
  Forall (fun l => hashable l = true) (Gantt.labels (Gantt.loaded t)) ->
  distinct_labels (Gantt.labels (Gantt.loaded t)) ->
  list_index (Gantt.labels (Gantt.loaded t)) (Package.label p)
  = Ok (length ps1).
Proof.
  intros Hps Hl Hh Hd. unfold list_index.
  rewrite (index_distinct _ (length ps1) (Package.label p) Hh Hd);
    [reflexivity|].
  rewrite Hl, Hps, list_lookup_fmap, list_lookup_middle by reflexivity.
  reflexivity.
Qed.

Lemma legend_step_truthy t st p i :
  truthy (Package.legend p) = true ->
  list_index (Gantt.labels (Gantt.loaded t)) (Package.label p) = Ok i ->
  (i < length (Gantt.yPos t))%nat ->
  Gantt.legend_step t st p
  = Ok (S (fst st), snd st ++ [set_label i (Package.legend p)]).
Proof.
  intros Htr Hi Hlt. apply Nat.ltb_lt in Hlt. unfold Gantt.legend_step.
  rewrite Htr, Hi. cbn [mbind result_bind]. rewrite Hlt. reflexivity.
Qed.

Lemma legend_step_falsy t st p :
  truthy (Package.legend p) = false -> Gantt.legend_step t st p = Ok st.
Proof. intros Htr. unfold Gantt.legend_step. rewrite Htr. reflexivity. Qed.

Lemma legend_loop_run t ps2 : forall ps1 n calls,
  Gantt.packages (Gantt.loaded t) = ps1 ++ ps2 ->
  Gantt.labels (Gantt.loaded t) = map Package.label (Gantt.packages (Gantt.loaded t)) ->
  Forall (fun l => hashable l = true) (Gantt.labels (Gantt.loaded t)) ->
  distinct_labels (Gantt.labels (Gantt.loaded t)) ->
  length (Gantt.yPos t) = length (Gantt.packages (Gantt.loaded t)) ->
  for_fold (Gantt.legend_step t) ps2 (n, calls)
  = Ok ((n + length (with_legend ps2))%nat,
        calls ++ legend_calls (length ps1) ps2).
Proof.
  induction ps2 as [|p ps2 IH]; intros ps1 n calls Hps Hl Hh Hd Hy.
  - cbn. rewrite Nat.add_0_r, app_nil_r. reflexivity.
  - cbn [for_fold]. rewrite legend_calls_cons, with_legend_cons.
    assert (Gantt.packages (Gantt.loaded t) = (ps1 ++ [p]) ++ ps2) as Hps'
      by (rewrite <- app_assoc; exact Hps).
    specialize (IH (ps1 ++ [p])).
    rewrite length_app in IH. cbn [length] in IH.
    rewrite Nat.add_1_r in IH.
    destruct (truthy (Package.legend p)) eqn:Htr.
    + rewrite (legend_step_truthy t _ p (length ps1) Htr
                 (own_index t ps1 p ps2 Hps Hl Hh Hd)).
      * cbn [mbind result_bind fst snd].
        rewrite (IH _ _ Hps' Hl Hh Hd Hy). cbn [length].
        rewrite <- app_assoc. f_equal. f_equal. lia.
      * rewrite Hy, Hps, length_app. cbn. lia.
    + rewrite (legend_step_falsy t _ p Htr). cbn [mbind result_bind].
      rewrite (IH _ _ Hps' Hl Hh Hd Hy). reflexivity.
Qed.

Lemma chart_yPos_length f t :
  Gantt.__init__ f = Ok t ->
  length (Gantt.yPos t) = length (Gantt.packages (Gantt.loaded t)).
Proof.
  intros H. destruct (chart_fields f t H) as (_ & _ & _ & _ & -> & _).
  rewrite length_map, length_seq. reflexivity.
Qed.

Lemma add_legend_run f t calls :
  Gantt.__init__ f = Ok t ->
  Gantt.add_legend t calls =
  Ok (calls ++ legend_calls 0 (Gantt.packages (Gantt.loaded t))
        ++ legend_box (Gantt.packages (Gantt.loaded t))).
Proof.
  intros H.
  destruct (chart_fields f t H) as (_ & _ & _ & _ & _ & Hl & Hh & Hd & _).
  unfold Gantt.add_legend, legend_box.
  rewrite (legend_loop_run t _ [] 0%nat calls eq_refl Hl Hh Hd
             (chart_yPos_length f t H)).
  cbn [mbind result_bind fst snd length].
  destruct (with_legend (Gantt.packages (Gantt.loaded t))); cbn.
  - rewrite app_nil_r. reflexivity.
  - rewrite <- app_assoc. reflexivity.
Qed.

(** X12: in a constructed chart [add_legend] labels exactly the bars of
    the packages whose legend counts as true: for each of them, in
    document order, one [set_label] call on the bar at the package's own
    position with the package's legend; the legend box is shown when
    there is at least one such package, and not otherwise. *)
Theorem legend_entries f t calls :
  Gantt.__init__ f = Ok t ->
  let ps := Gantt.packages (Gantt.loaded t) in
  Gantt.add_legend t calls = Ok (calls ++ legend_calls 0 ps ++ legend_box ps)
  /\ (forall i text,
        set_label i text ∈ legend_calls 0 ps <->
        exists p, ps !! i = Some p /\ truthy (Package.legend p) = true /\
                  text = Package.legend p)
  /\ (ax_legend ∈ legend_box ps <->
      exists p, p ∈ ps /\ truthy (Package.legend p) = true).
Proof.
  intros H ps. split; [exact (add_legend_run f t calls H)|]. split.
  - intros i text. unfold legend_calls. rewrite elem_of_concat. split.
    + intros (l & Hin & Hl). apply elem_of_lookup_imap in Hl.
      destruct Hl as (k & p & -> & Hp).
      destruct (truthy (Package.legend p)) eqn:Htr; [|inversion Hin].
      apply list_elem_of_singleton in Hin. injection Hin as -> ->.
      exists p. auto.
    + intros (p & Hp & Htr & ->).
      exists [set_label i (Package.legend p)]. split; [left|].
      apply elem_of_lookup_imap. exists i, p. rewrite Htr. auto.
  - unfold legend_box, with_legend. split.
    + intros Hin. destruct (filter _ ps) as [|p l] eqn:E; [inversion Hin|].
      exists p.
      assert (p ∈ filter (fun p => truthy (Package.legend p) = true) ps)
        as Hp by (rewrite E; left).
      apply list_elem_of_filter in Hp. tauto.
    + intros (p & Hp & Htr).
      assert (p ∈ filter (fun p => truthy (Package.legend p) = true) ps) as Hin
        by (apply list_elem_of_filter; auto).
      destruct (filter _ ps); [inversion Hin | left].
Qed.

Lemma legend_entries_witness :
  exists t, Gantt.__init__ ticked = Ok t /\
            Gantt.add_legend t [] = Ok [set_label 0 (JStr "first"); ax_legend].
Proof.
  eexists. split; [reflexivity|].
  lazymatch goal with
  | |- Gantt.add_legend ?t _ = _ =>
      exact (proj1 (legend_entries ticked t [] eq_refl))
  end.
Defined.

(** * [Gantt.add_milestones] *)

(** The markers of one package: its milestones' ordinals, all at the slot
    found through its label. *)
Lemma marker_loop t k i y vs : forall xy,
  list_index (Gantt.labels (Gantt.loaded t)) k = Ok i ->
  Gantt.yPos t !! i = Some y ->
  for_fold
    (fun (xy : list Z * list Z) (value : datetime) =>
       idx ← list_index (Gantt.labels (Gantt.loaded t)) k;
       y ← list_getitem (Gantt.yPos t) idx;
       Ok (fst xy ++ [toordinal value], snd xy ++ [y]))
    vs xy
  = Ok (fst xy ++ map toordinal vs, snd xy ++ replicate (length vs) y).
Proof.
  intros xy Hi Hy. revert xy.
  set (body := fun (xy : list Z * list Z) (value : datetime) => _).
  assert (forall xy v,
            body xy v = Ok (fst xy ++ [toordinal v], snd xy ++ [y])) as Hbody.
  { intros xy v. unfold body, list_getitem. rewrite Hi.
    cbn [mbind result_bind]. rewrite Hy. reflexivity. }
  clearbody body.
  induction vs as [|v vs IH]; intros [xs ys]; cbn [for_fold].
  - cbn. rewrite !app_nil_r. reflexivity.
  - rewrite Hbody. cbn [mbind result_bind fst snd]. rewrite IH.
    cbn [fst snd map length replicate]. rewrite <- !app_assoc. reflexivity.
Qed.

Lemma milestone_ys_cons N first p ps :
  milestone_ys N first (p :: ps) =
  replicate (length (Package.milestones p)) (Z.of_nat N - Z.of_nat first)
  ++ milestone_ys N (S first) ps.
Proof.
  unfold milestone_ys. rewrite imap_cons. cbn [concat].
  rewrite Nat.add_0_r. f_equal. f_equal. apply imap_ext.
  intros i x _. cbn. rewrite Nat.add_succ_r. reflexivity.
Qed.

Lemma markers_loop_run t ps2 : forall ps1 xy,
  Gantt.packages (Gantt.loaded t) = ps1 ++ ps2 ->
  Gantt.labels (Gantt.loaded t) = map Package.label (Gantt.packages (Gantt.loaded t)) ->
  Forall (fun l => hashable l = true) (Gantt.labels (Gantt.loaded t)) ->
  distinct_labels (Gantt.labels (Gantt.loaded t)) ->
  Gantt.yPos t =
    map (fun i => Z.of_nat (length (Gantt.packages (Gantt.loaded t)))
                  - Z.of_nat i)
        (seq 0 (length (Gantt.packages (Gantt.loaded t)))) ->
  for_fold
    (fun (xy : list Z * list Z) (kv : json * list datetime) =>
       for_fold
         (fun (xy : list Z * list Z) (value : datetime) =>
            idx ← list_index (Gantt.labels (Gantt.loaded t)) (fst kv);
            y ← list_getitem (Gantt.yPos t) idx;
            Ok (fst xy ++ [toordinal value], snd xy ++ [y]))
         (snd kv) xy)
    (milestone_entries ps2) xy
  = Ok (fst xy ++ milestone_xs ps2,
        snd xy ++ milestone_ys (length (Gantt.packages (Gantt.loaded t)))
                               (length ps1) ps2).
Proof.
  induction ps2 as [|p ps2 IH]; intros ps1 xy Hps Hl Hh Hd Hy.
  - cbn. rewrite !app_nil_r. destruct xy. reflexivity.
  - cbn [milestone_entries map for_fold fst snd].
    assert (Gantt.packages (Gantt.loaded t) = (ps1 ++ [p]) ++ ps2) as Hps'
      by (rewrite <- app_assoc; exact Hps).
    rewrite (marker_loop t (Package.label p) (length ps1)
               (Z.of_nat (length (Gantt.packages (Gantt.loaded t)))
                - Z.of_nat (length ps1))).
    + cbn [mbind result_bind].
      specialize (IH (ps1 ++ [p])). rewrite length_app in IH.
      cbn [length] in IH. rewrite Nat.add_1_r in IH.
      unfold milestone_entries in IH. rewrite (IH _ Hps' Hl Hh Hd Hy).
      cbn [fst snd]. rewrite milestone_ys_cons. unfold milestone_xs.
      cbn [map concat]. rewrite <- !app_assoc. reflexivity.
    + apply (own_index t ps1 p ps2 Hps Hl Hh Hd).
    + rewrite Hy. apply slot_lookup. rewrite Hps, length_app. cbn. lia.
Qed.

Lemma add_milestones_run f t calls :
  Gantt.__init__ f = Ok t ->
  Gantt.add_milestones t calls =
  match Gantt.packages (Gantt.loaded t) with
  | [] => Ok calls
  | _ :: _ =>
      Ok (calls ++
          [scatter (milestone_xs (Gantt.packages (Gantt.loaded t)))
                   (milestone_ys (length (Gantt.packages (Gantt.loaded t))) 0
                                 (Gantt.packages (Gantt.loaded t)))])
  end.
Proof.
  intros H.
  destruct (chart_fields f t H)
    as (_ & _ & _ & _ & Hy & Hl & Hh & Hd & Hm & _).
  unfold Gantt.add_milestones. rewrite Hm.
  destruct (Gantt.packages (Gantt.loaded t)) as [|p ps] eqn:Hps;
    [reflexivity|].
  cbn [milestone_entries map]. fold (milestone_entries ps).
  change ((Package.label p, Package.milestones p) :: milestone_entries ps)
    with (milestone_entries (p :: ps)).
  rewrite <- Hps in *.
  rewrite (markers_loop_run t _ [] ([], []) eq_refl Hl Hh Hd Hy).
  reflexivity.
Qed.

Lemma milestone_points_length N ps : forall first,
  length (milestone_xs ps) = length (milestone_ys N first ps).
Proof.
  induction ps as [|p ps IH]; intros first; [reflexivity|].
  rewrite milestone_ys_cons. unfold milestone_xs in *. cbn [map concat].
  rewrite !length_app, length_map, length_replicate. f_equal. apply IH.
Qed.

(** X13: in a constructed chart with at least one package
    [add_milestones] makes exactly one [scatter] call, also when no
    package has a milestone; it has one point for each milestone of each
    package, in document order: x is the ordinal of the milestone and y
    the slot of its package, [N - i] for the package at position [i].
    Without packages it makes no call. *)
Theorem milestone_markers f t calls :
  Gantt.__init__ f = Ok t ->
  let ps := Gantt.packages (Gantt.loaded t) in
  let xs := concat (map (fun p => map toordinal (Package.milestones p)) ps) in
  let ys := concat (imap (fun i p =>
                            replicate (length (Package.milestones p))
                              (Z.of_nat (length ps) - Z.of_nat i)) ps) in
  (ps = [] -> Gantt.add_milestones t calls = Ok calls) /\
  (ps <> [] -> Gantt.add_milestones t calls = Ok (calls ++ [scatter xs ys])) /\
  length xs = length ys.
Proof.
  intros H ps xs ys. pose proof (add_milestones_run f t calls H) as Hrun.
  fold ps in Hrun.
  assert (ys = milestone_ys (length ps) 0 ps) as Hys by reflexivity.
  split; [|split].
  - intros E. rewrite Hrun, E. reflexivity.
  - intros Hne. rewrite Hrun. destruct ps; [congruence|]. reflexivity.
  - rewrite Hys. apply (milestone_points_length (length ps) ps 0%nat).
Qed.

Lemma milestone_markers_witness :
  exists t, Gantt.__init__ ticked = Ok t /\
            Gantt.add_milestones t [] = Ok [scatter [737850] [1]].
Proof.
  eexists. split; [reflexivity|].
  lazymatch goal with
  | |- Gantt.add_milestones ?t _ = _ =>
      refine (proj1 (proj2 (milestone_markers ticked t [] eq_refl)) _)
  end.
  discriminate.
Defined.

(** * [Gantt.render] *)

Lemma render_run plt f t :
  Gantt.__init__ f = Ok t ->
  Gantt.packages (Gantt.loaded t) <> [] ->
  Gantt.render plt t =
  if reads_colors plt (map Package.color (Gantt.packages (Gantt.loaded t)))
  then
    calls ← Gantt.format t (bar_calls t);
    Ok (calls ++
        scatter (milestone_xs (Gantt.packages (Gantt.loaded t)))
                (milestone_ys (length (Gantt.packages (Gantt.loaded t))) 0
                              (Gantt.packages (Gantt.loaded t)))
        :: legend_calls 0 (Gantt.packages (Gantt.loaded t))
        ++ legend_box (Gantt.packages (Gantt.loaded t)))
  else Raise (ValueError InvalidColor).
Proof.
  intros H Hne. unfold Gantt.render.
  destruct (reads_colors plt _); [|reflexivity].
  change ([subplots; yaxis_grid false; xaxis_grid true] ++
          [barh (Gantt.yPos t) (Gantt.durations t) (Gantt.start t)
             (map Package.color (Gantt.packages (Gantt.loaded t)))])
    with (bar_calls t).
  destruct (Gantt.format t (bar_calls t)) as [c|e]; cbn [mbind result_bind];
    [|reflexivity].
  rewrite (add_milestones_run f t c H).
  destruct (Gantt.packages (Gantt.loaded t)) as [|p ps] eqn:Hps;
    [congruence|].
  cbn [mbind result_bind]. rewrite (add_legend_run f t _ H), Hps.
  rewrite <- app_assoc. reflexivity.
Qed.

(** X14: rendering a constructed chart with at least one package.  When
    [barh] refuses the colours of the packages, [render] raises its
    [ValueError] and nothing is formatted.  When it reads them, [render]
    fails exactly when [format] fails, with the same exception, and
    otherwise makes these calls in this order: the figure and grid set-up
    and one [barh] call with the slots, the durations, the start ordinals
    and the packages' colours; the calls of [format]; one [scatter] call
    with the milestone markers; the [set_label] calls and the legend
    box. *)
Theorem render_calls plt f t :
  Gantt.__init__ f = Ok t ->
  Gantt.packages (Gantt.loaded t) <> [] ->
  let ps := Gantt.packages (Gantt.loaded t) in
  let after :=
    scatter (milestone_xs ps) (milestone_ys (length ps) 0 ps)
    :: legend_calls 0 ps ++ legend_box ps in
  (reads_colors plt (map Package.color ps) = false ->
   Gantt.render plt t = Raise (ValueError InvalidColor)) /\
  (reads_colors plt (map Package.color ps) = true ->
   (forall calls, Gantt.format t (bar_calls t) = Ok calls ->
      Gantt.render plt t = Ok (calls ++ after)) /\
   (forall e, Gantt.format t (bar_calls t) = Raise e ->
      Gantt.render plt t = Raise e) /\
   (truthy (Gantt.xticks (Gantt.loaded t)) = false ->
    exists lo hi,
      py_min (Gantt.start t) = Ok lo /\ py_max (Gantt.end_ t) = Ok hi /\
      Gantt.render plt t =
      Ok (bar_calls t ++ tick_params :: axis_calls t lo hi ++ after))) /\
  (forall calls, Gantt.render plt t = Ok calls ->
     reads_colors plt (map Package.color ps) = true /\
     exists c, Gantt.format t (bar_calls t) = Ok c /\ calls = c ++ after).
Proof.
  intros H Hne ps after. pose proof (render_run plt f t H Hne) as Hrun.
  fold ps in Hrun. split; [|split].
  - intros Hc. rewrite Hrun, Hc. reflexivity.
  - intros Hc. rewrite Hc in Hrun. split; [|split].
    + intros calls Hf. rewrite Hrun, Hf. reflexivity.
    + intros e Hf. rewrite Hrun, Hf. reflexivity.
    + intros Hx.
      destruct (chart_fields f t H) as (_ & Hs & He & _).
      destruct (py_min_spec (Gantt.start t)) as (lo & Hlo & _).
      { rewrite Hs. destruct (Gantt.packages (Gantt.loaded t));
          [congruence | discriminate]. }
      destruct (py_max_spec (Gantt.end_ t)) as (hi & Hhi & _).
      { rewrite He. destruct (Gantt.packages (Gantt.loaded t));
          [congruence | discriminate]. }
      exists lo, hi. split; [exact Hlo|]. split; [exact Hhi|].
      rewrite Hrun, (format_run t _ lo hi Hlo Hhi), Hx.
      cbn [mbind result_bind]. rewrite <- app_assoc. reflexivity.
  - intros calls Hr. rewrite Hrun in Hr.
    destruct (reads_colors plt (map Package.color ps)); [|discriminate].
    split; [reflexivity|].
    destruct (Gantt.format t (bar_calls t)) as [c|e]; [|discriminate].
    cbn in Hr. injection Hr as <-. exists c. auto.
Qed.

Lemma render_calls_witness :
  exists t calls, Gantt.__init__ scenario = Ok t /\
                  Gantt.render default_colors_only t = Ok calls /\
                  length calls = 10%nat.
Proof.
  eexists.
  lazymatch goal with
  | |- exists calls, Gantt.__init__ _ = Ok ?t /\ _ =>
      destruct (proj2 (proj2 (proj1 (proj2
                  (render_calls default_colors_only scenario t eq_refl
                     ltac:(discriminate))) eq_refl)) eq_refl)
        as (lo & hi & _ & _ & Hr)
  end.
  eexists. split; [reflexivity|]. split; [exact Hr | reflexivity].
Defined.

(** * What Process can raise *)

Lemma for_each_raise_only {A B} (f : A -> result B) (P : exn -> Prop) xs e :
  (forall x e, f x = Raise e -> P e) ->
  for_each f xs = Raise e -> P e.
Proof.
  intros Honly. induction xs as [|x xs IH]; cbn; [discriminate|].
  destruct (f x) as [y|e'] eqn:Ex; cbn.
  - destruct (for_each f xs) as [ys|e'']; cbn; [discriminate|].
    intros [= <-]. apply IH. reflexivity.
  - intros [= <-]. apply (Honly x e' Ex).
Qed.

(** When every difference can be taken, every slot is filled. *)
Lemma slots_filled st : forall en ds,
  length st = length en ->
  for_each Gantt.sub_days (zip st en) = Ok ds ->
  (exists xs, for_each Gantt.ordinal_of st = Ok xs) /\
  (exists ys, for_each Gantt.ordinal_of en = Ok ys).
Proof.
  induction st as [|s st IH]; intros [|e en] ds Hlen H; try discriminate.
  - split; exists []; reflexivity.
  - cbn in H. bind_inv H d Hd. bind_inv H ds' Hds.
    destruct s as [s|], e as [e|]; try discriminate.
    injection Hlen as Hlen.
    destruct (IH en ds' Hlen Hds) as [[xs Hxs] [ys Hys]].
    split; eexists; cbn; rewrite ?Hxs, ?Hys; reflexivity.
Qed.

(** X15: after a successful load, Process either completes or raises
    [TypeError]; the other exceptions its statements could raise (the
    [ValueError] of [index] for a label that is not in the list, an
    [IndexError] of the slot assignment, the [AttributeError] of
    [toordinal] on an empty slot) never occur. *)
Theorem process_raises_only_TypeError f g e :
  Gantt._loadData f = Ok g ->
  Gantt._procData g = Raise e -> e = TypeError.
Proof.
  intros Hg. destruct (loaded_labels f g Hg) as (Hl & Hh & _).
  unfold Gantt._procData.
  destruct (place_loop (Gantt.labels g) (Gantt.packages g)
              (replicate (length (Gantt.labels g)) None)
              (replicate (length (Gantt.labels g)) None))
    as (st & en & Hrun & Hst & Hen & _).
  { apply length_replicate. }
  { apply length_replicate. }
  { intros p Hp. rewrite Hl. apply labels_found; [rewrite <- Hl|]; assumption. }
  rewrite Hrun. cbn [mbind result_bind fst snd].
  destruct (for_each Gantt.sub_days (zip st en)) as [ds|e'] eqn:Hds;
    cbn [mbind result_bind].
  - destruct (slots_filled st en ds) as [[xs Hxs] [ys Hys]];
      [congruence | exact Hds |].
    rewrite Hxs, Hys. cbn. discriminate.
  - intros [= <-].
    apply (for_each_raise_only Gantt.sub_days (fun e => e = TypeError)
             (zip st en) e' sub_days_TypeError Hds).
Qed.

Lemma process_raises_only_TypeError_witness :
  exists g, Gantt._loadData twice_A = Ok g /\
            Gantt._procData g = Raise TypeError.
Proof.
  eexists. split; [reflexivity|].
  lazymatch goal with
  | |- Gantt._procData ?g = _ =>
      destruct (Gantt._procData g) as [t|e] eqn:E; [discriminate E|];
      rewrite (process_raises_only_TypeError twice_A g e eq_refl E)
  end.
  reflexivity.
Defined.
